(** * The file-backed vdev I/O path and the zvol block-device entry point

    A shallow embedding of

    - [module/os/macos/zfs/vdev_file.c]: [vdev_file_open_mode],
      [vdev_file_open], [vdev_file_close], [vdev_file_io_strategy] and
      [vdev_file_io_start];
    - [module/os/macos/zfs/zvolIO.cpp]:
      [net_lundman_zfs_zvol_device::doAsyncReadWrite];
    - [include/os/macos/spl/sys/fcntl.h]: the flag constants.

    The C functions mutate a [vdev_t], a [zio_t] and the host's files.  They
    are embedded as state-passing functions over an explicit world; every
    call that leaves the translation unit (host file calls, the allocator,
    the task queue, the zio completion entry points, the volume layer, the
    I/O Kit completion action) appends one event to a chronological log, and
    its answer is taken from an abstract host.  Failed assertions and NULL
    dereferences end the run with [Panic]. *)

From Stdlib Require Import ZArith List String Ascii Bool Lia.
Import ListNotations.
Local Open Scope Z_scope.

(** ** Machine integers *)

(** [uint64_t] / [UInt64] arithmetic wraps modulo 2^64. *)
Definition u64 (x : Z) : Z := x mod 2 ^ 64.

(** Conversion to a signed 64-bit type ([ssize_t], [loff_t]). *)
Definition s64 (x : Z) : Z := (x + 2 ^ 63) mod 2 ^ 64 - 2 ^ 63.

(** ** State passing with fatal failures *)

(** Why a run stopped; the number is the line of the source file. *)
Inductive failure : Type :=
| ASSERT_failed (line : Z)
| VERIFY_failed (line : Z)
| NULL_deref (line : Z).

(** A run ends with a value and the final state, or stops at a failure in
    the state reached so far. *)
Inductive result (S A : Type) : Type :=
| Done (a : A) (s : S)
| Panic (f : failure) (s : S).
Arguments Done {S A} a s.
Arguments Panic {S A} f s.

Definition M (S A : Type) : Type := S -> result S A.

Definition ret {S A : Type} (a : A) : M S A := fun s => Done a s.

Definition bind {S A B : Type} (m : M S A) (k : A -> M S B) : M S B :=
  fun s => match m s with
           | Done a s' => k a s'
           | Panic f s' => Panic f s'
           end.

Definition panic {S A : Type} (f : failure) : M S A := fun s => Panic f s.

Definition modify {S : Type} (g : S -> S) : M S unit := fun s => Done tt (g s).

Declare Scope m_scope.
Delimit Scope m_scope with m.
Notation "x <- m ;; k" := (bind m (fun x => k))
  (at level 61, m at next level, right associativity) : m_scope.
Notation "' pat <- m ;; k" := (bind m (fun x => match x with pat => k end))
  (at level 61, pat pattern, m at next level, right associativity) : m_scope.
Notation "m ;; k" := (bind m (fun _ => k))
  (at level 61, right associativity) : m_scope.
Local Open Scope m_scope.

(** Modelled from the spec: the [ASSERT], [ASSERT3U] and [VERIFY3U] macros
    are declared outside the files at hand; the specification calls a
    violated assertion a fatal precondition, so a false condition stops the
    run.  This is the behaviour of a build in which assertions are
    checked. *)
Definition ASSERT {S : Type} (line : Z) (cond : bool) : M S unit :=
  if cond then ret tt else panic (ASSERT_failed line).

Definition VERIFY {S : Type} (line : Z) (cond : bool) : M S unit :=
  if cond then ret tt else panic (VERIFY_failed line).

(** ** Constants *)

(** [errno] values of Darwin's [<sys/errno.h>]; [SET_ERROR] only traces. *)
Module Errno.
Definition EIO : Z := 5.
Definition ENXIO : Z := 6.
Definition ENODEV : Z := 19.
Definition EINVAL : Z := 22.
Definition ENOSPC : Z := 28.
Definition ENOTSUP : Z := 45.
Definition SET_ERROR (e : Z) : Z := e.
End Errno.
Import Errno.

(** [include/os/macos/spl/sys/fcntl.h], and the host's open flags. *)
Module Fcntl.
Definition F_FREESP : Z := 11.
Definition O_LARGEFILE : Z := 0.
Definition O_RSYNC : Z := 0.
Definition O_DIRECT : Z := 0.
Definition O_RDONLY : Z := 0.
Definition O_WRONLY : Z := 1.
Definition O_RDWR : Z := 2.
Definition O_SYNC : Z := 128.
Definition O_DSYNC : Z := 4194304.
End Fcntl.
Import Fcntl.

(** [spa_mode_t] bits. *)
Definition SPA_MODE_READ : Z := 1.
Definition SPA_MODE_WRITE : Z := 2.

(** Modelled from the spec: [SPA_MINBLOCKSHIFT] is declared in [sys/spa.h],
    outside the files at hand; the specification gives it as the fixed
    constant representing 512-byte sectors, that is a shift of 9. *)
Definition SPA_MINBLOCKSHIFT : Z := 9.

(** * vdev_file.c *)

Module VdevFile.

(** A [zfs_file_t *]: [None] is NULL. *)
Definition zfs_file_ptr : Type := option positive.

Record zfs_file_attr_t : Type := mk_zfa {
  zfa_size : Z;
  zfa_mode : Z
}.

Record vdev_file_t : Type := mk_vf {
  vf_file : zfs_file_ptr
}.

Inductive vdev_aux_t : Type :=
| VDEV_AUX_NONE
| VDEV_AUX_OPEN_FAILED
| VDEV_AUX_BAD_LABEL.

(** The fields of [vdev_t] that the file touches.  [vdev_tsd] points to a
    [vdev_file_t] that nothing else references, so the struct is held in
    place; [None] is NULL.  [vdev_spa_mode] is [spa_mode(vd->vdev_spa)]. *)
Record vdev_t : Type := mk_vdev {
  vdev_path : option string;
  vdev_tsd : option vdev_file_t;
  vdev_reopening : bool;
  vdev_nonrot : bool;
  vdev_has_trim : bool;
  vdev_has_securetrim : bool;
  vdev_delayed_close : bool;
  vs_aux : vdev_aux_t;
  vdev_spa_mode : Z
}.

Definition set_vdev_tsd (t : option vdev_file_t) (vd : vdev_t) : vdev_t :=
  mk_vdev (vdev_path vd) t (vdev_reopening vd) (vdev_nonrot vd)
    (vdev_has_trim vd) (vdev_has_securetrim vd) (vdev_delayed_close vd)
    (vs_aux vd) (vdev_spa_mode vd).

Definition set_vdev_reopening (b : bool) (vd : vdev_t) : vdev_t :=
  mk_vdev (vdev_path vd) (vdev_tsd vd) b (vdev_nonrot vd)
    (vdev_has_trim vd) (vdev_has_securetrim vd) (vdev_delayed_close vd)
    (vs_aux vd) (vdev_spa_mode vd).

Definition set_vdev_nonrot (b : bool) (vd : vdev_t) : vdev_t :=
  mk_vdev (vdev_path vd) (vdev_tsd vd) (vdev_reopening vd) b
    (vdev_has_trim vd) (vdev_has_securetrim vd) (vdev_delayed_close vd)
    (vs_aux vd) (vdev_spa_mode vd).

Definition set_vdev_has_trim (b : bool) (vd : vdev_t) : vdev_t :=
  mk_vdev (vdev_path vd) (vdev_tsd vd) (vdev_reopening vd) (vdev_nonrot vd)
    b (vdev_has_securetrim vd) (vdev_delayed_close vd)
    (vs_aux vd) (vdev_spa_mode vd).

Definition set_vdev_has_securetrim (b : bool) (vd : vdev_t) : vdev_t :=
  mk_vdev (vdev_path vd) (vdev_tsd vd) (vdev_reopening vd) (vdev_nonrot vd)
    (vdev_has_trim vd) b (vdev_delayed_close vd)
    (vs_aux vd) (vdev_spa_mode vd).

Definition set_vdev_delayed_close (b : bool) (vd : vdev_t) : vdev_t :=
  mk_vdev (vdev_path vd) (vdev_tsd vd) (vdev_reopening vd) (vdev_nonrot vd)
    (vdev_has_trim vd) (vdev_has_securetrim vd) b
    (vs_aux vd) (vdev_spa_mode vd).

Definition set_vs_aux (a : vdev_aux_t) (vd : vdev_t) : vdev_t :=
  mk_vdev (vdev_path vd) (vdev_tsd vd) (vdev_reopening vd) (vdev_nonrot vd)
    (vdev_has_trim vd) (vdev_has_securetrim vd) (vdev_delayed_close vd)
    a (vdev_spa_mode vd).

Inductive zio_type_t : Type :=
| ZIO_TYPE_NULL
| ZIO_TYPE_READ
| ZIO_TYPE_WRITE
| ZIO_TYPE_FREE
| ZIO_TYPE_CLAIM
| ZIO_TYPE_IOCTL
| ZIO_TYPE_TRIM.

Definition zio_type_eqb (a b : zio_type_t) : bool :=
  match a, b with
  | ZIO_TYPE_NULL, ZIO_TYPE_NULL
  | ZIO_TYPE_READ, ZIO_TYPE_READ
  | ZIO_TYPE_WRITE, ZIO_TYPE_WRITE
  | ZIO_TYPE_FREE, ZIO_TYPE_FREE
  | ZIO_TYPE_CLAIM, ZIO_TYPE_CLAIM
  | ZIO_TYPE_IOCTL, ZIO_TYPE_IOCTL
  | ZIO_TYPE_TRIM, ZIO_TYPE_TRIM => true
  | _, _ => false
  end.

(** The fields of [zio_t] that the file touches.  [io_vd] is the world's
    vdev; the bytes behind [io_abd] are not modelled, only the transfer's
    size, offset, error and residual. *)
Record zio_t : Type := mk_zio {
  io_type : zio_type_t;
  io_cmd : Z;
  io_offset : Z;
  io_size : Z;
  io_error : Z;
  io_target_timestamp : Z
}.

Definition set_io_error (e : Z) (zio : zio_t) : zio_t :=
  mk_zio (io_type zio) (io_cmd zio) (io_offset zio) (io_size zio) e
    (io_target_timestamp zio).

Definition set_io_target_timestamp (t : Z) (zio : zio_t) : zio_t :=
  mk_zio (io_type zio) (io_cmd zio) (io_offset zio) (io_size zio)
    (io_error zio) t.

(** Calls that leave the file, in the order they are made. *)
Inductive event : Type :=
| EvKmemZalloc
| EvKmemFree
| EvFileOpen (path : string) (flags mode : Z)
| EvFileGetattr (fp : zfs_file_ptr)
| EvFileClose (fp : zfs_file_ptr)
| EvFilePread (fp : zfs_file_ptr) (size off : Z)
| EvFilePwrite (fp : zfs_file_ptr) (size off : Z)
| EvFileFsync (fp : zfs_file_ptr) (flags : Z)
| EvFileFallocate (fp : zfs_file_ptr) (mode off len : Z)
| EvTaskqDispatch (zio : zio_t)
| EvZioInterrupt (zio : zio_t)
| EvZioExecute (zio : zio_t)
| EvZioDelayInterrupt (zio : zio_t).

(** The calls that reach the host's file system. *)
Definition is_host_call (e : event) : bool :=
  match e with
  | EvFileOpen _ _ _ | EvFileGetattr _ | EvFileClose _
  | EvFilePread _ _ _ | EvFilePwrite _ _ _
  | EvFileFsync _ _ | EvFileFallocate _ _ _ _ => true
  | _ => false
  end.

Definition is_dispatch (e : event) : bool :=
  match e with EvTaskqDispatch _ => true | _ => false end.

(** The completion entry points of the zio layer. *)
Definition is_completion (e : event) : bool :=
  match e with
  | EvZioInterrupt _ | EvZioExecute _ | EvZioDelayInterrupt _ => true
  | _ => false
  end.

(** What the file expects of its surroundings: the [zfs_file_*] calls, the
    task queue, the fault-injection delay and [vdev_readable].  Every call
    may read and change the host state [H].  [zfs_file_open] answers with
    the error and the pointer stored through [fpp]; [zfs_file_pread] and
    [zfs_file_pwrite] take the value [resid] has before the call and answer
    with the error and the value it has after; [taskq_dispatch] answers
    with the task id, 0 on failure. *)
Class HostOps (H : Type) : Type := {
  zfs_file_open : string -> Z -> Z -> H -> (Z * zfs_file_ptr) * H;
  zfs_file_getattr : zfs_file_ptr -> H -> (Z * zfs_file_attr_t) * H;
  zfs_file_close : zfs_file_ptr -> H -> unit * H;
  zfs_file_pread : zfs_file_ptr -> Z -> Z -> Z -> H -> (Z * Z) * H;
  zfs_file_pwrite : zfs_file_ptr -> Z -> Z -> Z -> H -> (Z * Z) * H;
  zfs_file_fsync : zfs_file_ptr -> Z -> H -> Z * H;
  zfs_file_fallocate : zfs_file_ptr -> Z -> Z -> Z -> H -> Z * H;
  taskq_dispatch : zio_t -> H -> Z * H;
  zio_handle_io_delay : zio_t -> H -> Z * H;
  vdev_readable : vdev_t -> bool;
  DKIOCFLUSHWRITECACHE : Z
}.

Section WithHost.

Context {H : Type} {host : HostOps H}.

(** [KERNEL] says whether [_KERNEL] is defined. *)
Variable KERNEL : bool.

Record world : Type := mk_world {
  w_host : H;
  w_vd : vdev_t;
  w_log : list event
}.

(** A call that leaves the file: log it, let the host answer. *)
Definition call {A : Type} (e : event) (f : H -> A * H) : M world A :=
  fun w => let (a, h) := f (w_host w) in
           Done a (mk_world h (w_vd w) (w_log w ++ [e])).

Definition get_vd : M world vdev_t := fun w => Done (w_vd w) w.

Definition modify_vd (g : vdev_t -> vdev_t) : M world unit :=
  modify (fun w => mk_world (w_host w) (g (w_vd w)) (w_log w)).

(** A call whose answer is used but which is not logged. *)
Definition ask {A : Type} (f : H -> A * H) : M world A :=
  fun w => let (a, h) := f (w_host w) in
           Done a (mk_world h (w_vd w) (w_log w)).

(** A call with no answer and no effect on the host's files. *)
Definition emit (e : event) : M world unit :=
  call e (fun h => (tt, h)).

(** [vf->vf_file] for [vf = vd->vdev_tsd]. *)
Definition deref_vf (line : Z) (vf : option vdev_file_t) : M world zfs_file_ptr :=
  match vf with
  | Some s => ret (vf_file s)
  | None => panic (NULL_deref line)
  end.

(** ** vdev_file_open_mode *)

Definition vdev_file_open_mode (spa_mode : Z) : Z :=
  let mode :=
    if negb (Z.land spa_mode SPA_MODE_READ =? 0)
       && negb (Z.land spa_mode SPA_MODE_WRITE =? 0) then O_RDWR
    else if negb (Z.land spa_mode SPA_MODE_READ =? 0) then O_RDONLY
    else if negb (Z.land spa_mode SPA_MODE_WRITE =? 0) then O_WRONLY
    else 0 in
  Z.lor mode O_LARGEFILE.

(** ** vdev_file_open *)

(** The four locations [vdev_file_open] writes through. *)
Record open_out : Type := mk_out {
  psize : Z;
  max_psize : Z;
  ashift : Z;
  physical_ashift : Z
}.

(** [vd->vdev_path[0]]; the empty string starts with its terminator. *)
Definition first_char (s : string) : ascii :=
  match s with
  | EmptyString => zero
  | String c _ => c
  end.

(** [vd->vdev_path == NULL || vd->vdev_path[0] != '/'] *)
Definition path_invalid (p : option string) : bool :=
  match p with
  | None => true
  | Some s => negb (Ascii.eqb (first_char s) "/"%char)
  end.

Definition non_null {A : Type} (p : option A) : bool :=
  match p with Some _ => true | None => false end.

(** The characters behind a [char *] that is known not to be NULL. *)
Definition path_str (p : option string) : string :=
  match p with Some s => s | None => EmptyString end.

(** From the label [skip_open] to the end of the function. *)
Definition skip_open (outs : open_out) : M world (Z * open_out) :=
  vd <- get_vd ;;
  fp <- deref_vf 147 (vdev_tsd vd) ;;
  '(error, zfa) <- call (EvFileGetattr fp) (zfs_file_getattr fp) ;;
  if negb (error =? 0) then
    modify_vd (set_vs_aux VDEV_AUX_OPEN_FAILED) ;;
    ret (error, outs)
  else
    ret (0, mk_out (zfa_size zfa) (zfa_size zfa)
                   SPA_MINBLOCKSHIFT SPA_MINBLOCKSHIFT).

Definition vdev_file_open (outs : open_out) : M world (Z * open_out) :=
  modify_vd (set_vdev_nonrot true) ;;
  modify_vd (set_vdev_has_trim true) ;;
  modify_vd (set_vdev_has_securetrim false) ;;
  vd <- get_vd ;;
  if path_invalid (vdev_path vd) then
    modify_vd (set_vs_aux VDEV_AUX_BAD_LABEL) ;;
    ret (SET_ERROR EINVAL, outs)
  else if KERNEL && non_null (vdev_tsd vd) then
    ASSERT 116 (vdev_reopening vd) ;;
    skip_open outs
  else
    emit EvKmemZalloc ;;
    modify_vd (set_vdev_tsd (Some (mk_vf None))) ;;
    ASSERT 124 (negb (path_invalid (vdev_path vd))) ;;
    let path := path_str (vdev_path vd) in
    let mode := vdev_file_open_mode (vdev_spa_mode vd) in
    '(error, fp) <- call (EvFileOpen path mode 0)
                         (zfs_file_open path mode 0) ;;
    if negb (error =? 0) then
      modify_vd (set_vs_aux VDEV_AUX_OPEN_FAILED) ;;
      ret (error, outs)
    else
      modify_vd (set_vdev_tsd (Some (mk_vf fp))) ;;
      '(e, _) <- call (EvFileGetattr fp) (zfs_file_getattr fp) ;;
      if negb (e =? 0) then
        ret (SET_ERROR ENODEV, outs)
      else
        skip_open outs.

(** ** vdev_file_close *)

Definition vdev_file_close : M world unit :=
  vd <- get_vd ;;
  let vf := vdev_tsd vd in
  match vdev_reopening vd, vf with
  | true, _ | _, None => ret tt
  | false, Some s =>
      match vf_file s with
      | Some f => call (EvFileClose (Some f)) (zfs_file_close (Some f))
      | None => ret tt
      end ;;
      modify_vd (set_vdev_delayed_close false) ;;
      emit EvKmemFree ;;
      modify_vd (set_vdev_tsd None)
  end.

(** ** vdev_file_io_strategy *)

Definition vdev_file_io_strategy (zio : zio_t) : M world zio_t :=
  vd <- get_vd ;;
  let vf := vdev_tsd vd in
  let off := s64 (io_offset zio) in
  let size := s64 (io_size zio) in
  let resid := 0 in
  '(err, resid) <-
    (if zio_type_eqb (io_type zio) ZIO_TYPE_READ then
       fp <- deref_vf 197 vf ;;
       call (EvFilePread fp size off) (zfs_file_pread fp size off resid)
     else
       fp <- deref_vf 202 vf ;;
       call (EvFilePwrite fp size off) (zfs_file_pwrite fp size off resid)) ;;
  let zio := set_io_error (if negb (err =? 0) then EIO else 0) zio in
  let zio := if (io_error zio =? 0) && negb (resid =? 0)
             then set_io_error (SET_ERROR ENOSPC) zio
             else zio in
  emit (EvZioDelayInterrupt zio) ;;
  ret zio.

(** ** vdev_file_io_start *)

Definition vdev_file_io_start (zio : zio_t) : M world zio_t :=
  vd <- get_vd ;;
  let vf := vdev_tsd vd in
  if zio_type_eqb (io_type zio) ZIO_TYPE_IOCTL then
    if negb (vdev_readable vd) then
      let zio := set_io_error (SET_ERROR ENXIO) zio in
      emit (EvZioInterrupt zio) ;;
      ret zio
    else
      zio <- (if io_cmd zio =? DKIOCFLUSHWRITECACHE then
                fp <- deref_vf 230 vf ;;
                e <- call (EvFileFsync fp (Z.lor O_SYNC O_DSYNC))
                          (zfs_file_fsync fp (Z.lor O_SYNC O_DSYNC)) ;;
                ret (set_io_error e zio)
              else
                ret (set_io_error (SET_ERROR ENOTSUP) zio)) ;;
      emit (EvZioExecute zio) ;;
      ret zio
  else if zio_type_eqb (io_type zio) ZIO_TYPE_TRIM then
    let mode := 0 in
    ASSERT 242 (negb (io_size zio =? 0)) ;;
    fp <- deref_vf 245 vf ;;
    e <- call (EvFileFallocate fp mode (io_offset zio) (io_size zio))
              (zfs_file_fallocate fp mode (io_offset zio) (io_size zio)) ;;
    let zio := set_io_error e zio in
    emit (EvZioExecute zio) ;;
    ret zio
  else
    ASSERT 251 (zio_type_eqb (io_type zio) ZIO_TYPE_READ
                || zio_type_eqb (io_type zio) ZIO_TYPE_WRITE) ;;
    t <- ask (zio_handle_io_delay zio) ;;
    let zio := set_io_target_timestamp t zio in
    id <- call (EvTaskqDispatch zio) (taskq_dispatch zio) ;;
    VERIFY 254 (negb (id =? 0)) ;;
    ret zio.

End WithHost.

Arguments world H : clear implicits.

(** ** A host to run the functions on

    One regular file of [size] bytes behind handle 1.  [rd] and [wr] are the
    error and residual that every positioned read and write answers with;
    the other calls succeed.  The host has no state of its own. *)
Definition sim_host (size : Z) (rd wr : Z * Z) (readable : bool)
  : HostOps unit := {|
  zfs_file_open := fun _ _ _ h => ((0, Some 1%positive), h);
  zfs_file_getattr := fun _ h => ((0, mk_zfa size 0), h);
  zfs_file_close := fun _ h => (tt, h);
  zfs_file_pread := fun _ _ _ _ h => (rd, h);
  zfs_file_pwrite := fun _ _ _ _ h => (wr, h);
  zfs_file_fsync := fun _ _ h => (0, h);
  zfs_file_fallocate := fun _ _ _ _ h => (0, h);
  taskq_dispatch := fun _ h => (1, h);
  zio_handle_io_delay := fun _ h => (0, h);
  vdev_readable := fun _ => readable;
  DKIOCFLUSHWRITECACHE := 1058
|}.

(** A closed device on [path], and the same device open on handle 1. *)
Definition closed_vdev (path : option string) : vdev_t :=
  mk_vdev path None false false false false false VDEV_AUX_NONE
    (Z.lor SPA_MODE_READ SPA_MODE_WRITE).

Definition open_vdev (reopening : bool) : vdev_t :=
  mk_vdev (Some "/tmp/pool.img"%string) (Some (mk_vf (Some 1%positive)))
    reopening true true false false VDEV_AUX_NONE
    (Z.lor SPA_MODE_READ SPA_MODE_WRITE).

Definition sample_zio (t : zio_type_t) (cmd off size : Z) : zio_t :=
  mk_zio t cmd off size 0 0.

(** A world over the stateless host, with an empty log. *)
Definition sample_world (vd : vdev_t) : world unit := mk_world tt vd [].

(** A readable 1 MiB device whose transfers are complete; one whose reads
    fail; one whose reads come back 512 bytes short; and an unreadable
    one. *)
Definition good_host : HostOps unit := sim_host 1048576 (0, 0) (0, 0) true.
Definition failing_host : HostOps unit := sim_host 1048576 (5, 0) (5, 0) true.
Definition short_host : HostOps unit := sim_host 1048576 (0, 512) (0, 512) true.
Definition unreadable_host : HostOps unit :=
  sim_host 1048576 (0, 0) (0, 0) false.

End VdevFile.

(** * zvolIO.cpp *)

Module ZvolIO.

Inductive IOReturn : Type :=
| kIOReturnSuccess
| kIOReturnError
| kIOReturnNotAttached
| kIOReturnBadArgument
| kIOReturnUnsupported.

Inductive IODirection : Type :=
| kIODirectionNone
| kIODirectionIn
| kIODirectionOut
| kIODirectionInOut.

Definition IODirection_eqb (a b : IODirection) : bool :=
  match a, b with
  | kIODirectionNone, kIODirectionNone
  | kIODirectionIn, kIODirectionIn
  | kIODirectionOut, kIODirectionOut
  | kIODirectionInOut, kIODirectionInOut => true
  | _, _ => false
  end.

(** [DEV_BSIZE] comes from the system headers; the file's own comment on
    the logical block size gives it as 512 bytes. *)
Definition DEV_BSIZE : Z := 512.
Definition ZVOL_BSIZE : Z := DEV_BSIZE.

(** The fields of [zvol_state_t] the method reads: [zv_dn] ([None] is NULL)
    and the volume size in bytes. *)
Record zvol_state_t : Type := mk_zv {
  zv_dn : option positive;
  zv_volsize : Z
}.

(** The device object: the answer of [isInactive()] and its [zv]. *)
Record zvol_device : Type := mk_dev {
  isInactive : bool;
  zv : zvol_state_t
}.

Record IOMemoryDescriptor : Type := mk_buf {
  getDirection : IODirection
}.

Inductive event : Type :=
| EvZvolRead (off count : Z)
| EvZvolWrite (off count : Z)
| EvCompletion (status : IOReturn) (actualByteCount : Z).

Definition is_completion (e : event) : bool :=
  match e with
  | EvCompletion _ _ => true
  | _ => false
  end.

(** The volume layer under the device: [zvol_os_read_zv] and
    [zvol_os_write_zv] answer with 0 or an error, and may change the
    volume [V]. *)
Class ZvolOps (V : Type) : Type := {
  zvol_os_read_zv : zvol_state_t -> Z -> Z -> V -> Z * V;
  zvol_os_write_zv : zvol_state_t -> Z -> Z -> V -> Z * V
}.

Section WithVolume.

Context {V : Type} {vol : ZvolOps V}.

Record world : Type := mk_world {
  w_vol : V;
  w_log : list event
}.

Definition call {A : Type} (e : event) (f : V -> A * V) : M world A :=
  fun w => let (a, v) := f (w_vol w) in
           Done a (mk_world v (w_log w ++ [e])).

Definition emit (e : event) : M world unit :=
  call e (fun v => (tt, v)).

(** ** doAsyncReadWrite

    [block] and [nblks] are [UInt64]; the products with [ZVOL_BSIZE] and the
    sum are computed in 64 bits. *)
Definition doAsyncReadWrite (this : zvol_device)
    (buffer : IOMemoryDescriptor) (block nblks : Z) : M world IOReturn :=
  if isInactive this then
    ret kIOReturnNotAttached
  else if negb (VdevFile.non_null (zv_dn (zv this))) then
    ret kIOReturnNotAttached
  else if zv_volsize (zv this) <=? u64 (block * ZVOL_BSIZE) then
    ret kIOReturnBadArgument
  else if zv_volsize (zv this) <? u64 (u64 (block + nblks) * ZVOL_BSIZE) then
    ret kIOReturnBadArgument
  else
    let direction := getDirection buffer in
    if negb (IODirection_eqb direction kIODirectionIn)
       && negb (IODirection_eqb direction kIODirectionOut) then
      ret kIOReturnBadArgument
    else
      let actualByteCount := u64 (nblks * ZVOL_BSIZE) in
      actualByteCount <-
        (if IODirection_eqb direction kIODirectionIn then
           e <- call (EvZvolRead (u64 (block * ZVOL_BSIZE)) actualByteCount)
                     (zvol_os_read_zv (zv this) (u64 (block * ZVOL_BSIZE))
                        actualByteCount) ;;
           ret (if negb (e =? 0) then 0 else actualByteCount)
         else
           e <- call (EvZvolWrite (u64 (block * ZVOL_BSIZE)) actualByteCount)
                     (zvol_os_write_zv (zv this) (u64 (block * ZVOL_BSIZE))
                        actualByteCount) ;;
           ret (if negb (e =? 0) then 0 else actualByteCount)) ;;
      emit (EvCompletion kIOReturnSuccess actualByteCount) ;;
      ret kIOReturnSuccess.

End WithVolume.

Arguments world V : clear implicits.

(** ** A volume to run the method on: every read answers [rd], every write
    [wr]. *)
Definition sim_volume (rd wr : Z) : ZvolOps unit := {|
  zvol_os_read_zv := fun _ _ _ v => (rd, v);
  zvol_os_write_zv := fun _ _ _ v => (wr, v)
|}.

(** An attached device over a volume of [size] bytes. *)
Definition attached (size : Z) : zvol_device :=
  mk_dev false (mk_zv (Some 1%positive) size).

End ZvolIO.

(** * More hosts for vdev_file.c *)

Module VdevFileHosts.

Import VdevFile.

(** A host that counts the attribute calls made so far.  The open call
    answers [open_ans]; the n-th attribute call answers the n-th error of
    [attr_errs] (0 beyond its end) with a file of [size] bytes; the task
    queue answers [tq]; the delay is 7; every other call succeeds. *)
Definition script_host (open_ans : Z * zfs_file_ptr) (attr_errs : list Z)
    (size : Z) (tq : Z) : HostOps nat := {|
  zfs_file_open := fun _ _ _ n => (open_ans, n);
  zfs_file_getattr := fun _ n => ((nth n attr_errs 0, mk_zfa size 0), S n);
  zfs_file_close := fun _ n => (tt, n);
  zfs_file_pread := fun _ _ _ _ n => ((0, 0), n);
  zfs_file_pwrite := fun _ _ _ _ n => ((0, 0), n);
  zfs_file_fsync := fun _ _ n => (0, n);
  zfs_file_fallocate := fun _ _ _ _ n => (0, n);
  taskq_dispatch := fun _ n => (tq, n);
  zio_handle_io_delay := fun _ n => (7, n);
  vdev_readable := fun _ => true;
  DKIOCFLUSHWRITECACHE := 1058
|}.

(** A world over the counting host, with no call made yet. *)
Definition script_world (vd : vdev_t) : world nat := mk_world 0%nat vd [].

(** A closed device on an absolute path. *)
Definition abs_vdev : vdev_t := closed_vdev (Some "/tmp/pool.img"%string).

(** Hosts on which everything succeeds, the open call fails with 2, the
    first attribute call fails with 5, and the task queue refuses. *)
Definition ok_host : HostOps nat :=
  script_host (0, Some 1%positive) [] 1048576 1.
Definition noent_host : HostOps nat :=
  script_host (2, None) [] 1048576 1.
Definition noattr_host : HostOps nat :=
  script_host (0, Some 1%positive) [5] 1048576 1.
Definition notask_host : HostOps nat :=
  script_host (0, Some 1%positive) [] 1048576 0.

(** Submit a request, then let a worker run it: [vdev_file_io_start]
    followed, for the request it dispatched, by [vdev_file_io_strategy]. *)
Definition submit_and_work {H : Type} {host : HostOps H} (zio : zio_t)
  : M (world H) zio_t :=
  zio1 <- vdev_file_io_start zio ;;
  vdev_file_io_strategy zio1.

(** Open the device, then close it. *)
Definition open_then_close {H : Type} {host : HostOps H} (KERNEL : bool)
    (outs : open_out) : M (world H) (Z * open_out) :=
  r <- vdev_file_open KERNEL outs ;;
  vdev_file_close ;;
  ret r.

(** The reopen sequence of the vdev layer: close, then open again. *)
Definition close_then_open {H : Type} {host : HostOps H} (KERNEL : bool)
    (outs : open_out) : M (world H) (Z * open_out) :=
  vdev_file_close ;;
  vdev_file_open KERNEL outs.

End VdevFileHosts.

(** * spl-seg_kmem.c *)

Module SegKmem.

Definition UINT32_MAX : Z := 4294967295.
Definition KERN_SUCCESS : Z := 0.

(** The file's global counters. *)
Record kmem_stats : Type := mk_stats {
  segkmem_total_mem_allocated : Z;
  stat_osif_malloc_success : Z;
  stat_osif_free : Z;
  stat_osif_malloc_bytes : Z;
  stat_osif_free_bytes : Z
}.

(** [atomic_inc_64], [atomic_add_64] and [atomic_sub_64] on a 64-bit
    counter, one thread at a time. *)
Definition atomic_inc_64 (x : Z) : Z := u64 (x + 1).
Definition atomic_add_64 (x d : Z) : Z := u64 (x + d).
Definition atomic_sub_64 (x d : Z) : Z := u64 (x - d).

(** A [void *]: [None] is NULL. *)
Definition address : Type := option positive.

Inductive event : Type :=
| EvIOMallocAligned (size alignment : Z)
| EvIOFreeAligned (buf : address) (size : Z)
| EvMalloc (size : Z)
| EvFree (buf : address).

(** The allocators under the file: I/O Kit's in the kernel, the C library's
    outside. *)
Class AllocOps (A : Type) : Type := {
  IOMallocAligned : Z -> Z -> A -> address * A;
  IOFreeAligned : address -> Z -> A -> unit * A;
  malloc : Z -> A -> address * A;
  free : address -> A -> unit * A
}.

(** The usual body of [ISP2], [((x) & ((x) - 1)) == 0], to run the
    functions with. *)
Definition ISP2_usual (x : Z) : bool := Z.land x (x - 1) =? 0.

(** The five smearing steps of [osif_malloc], lines 167-171. *)
Definition smear (v : Z) : Z :=
  let v := Z.lor v (Z.shiftr v 1) in
  let v := Z.lor v (Z.shiftr v 2) in
  let v := Z.lor v (Z.shiftr v 4) in
  let v := Z.lor v (Z.shiftr v 8) in
  let v := Z.lor v (Z.shiftr v 16) in
  v.

Section WithPlatform.

Context {A : Type} {alloc : AllocOps A}.

(** [KERNEL] says whether [_KERNEL] is defined.  [PAGESIZE] and the
    power-of-two test [ISP2] are macros declared outside the files at
    hand. *)
Variable KERNEL : bool.
Variable PAGESIZE : Z.
Variable ISP2 : Z -> bool.

Record world : Type := mk_world {
  w_alloc : A;
  w_stats : kmem_stats;
  w_log : list event
}.

Definition call {B : Type} (e : event) (f : A -> B * A) : M world B :=
  fun w => let (b, a) := f (w_alloc w) in
           Done b (mk_world a (w_stats w) (w_log w ++ [e])).

Definition modify_stats (g : kmem_stats -> kmem_stats) : M world unit :=
  modify (fun w => mk_world (w_alloc w) (g (w_stats w)) (w_log w)).

(** The alignment [osif_malloc] hands to [IOMallocAligned]:
    [MAX(PAGESIZE, align)] with [align] as lines 163-176 compute it. *)
Definition osif_malloc_align (size : Z) : Z :=
  let align := PAGESIZE in
  let align :=
    if (PAGESIZE <? size) && negb (ISP2 size) && (size <? UINT32_MAX) then
      let v := size in
      let v := u64 (v - 1) in
      let v := Z.lor v (Z.shiftr v 1) in
      let v := Z.lor v (Z.shiftr v 2) in
      let v := Z.lor v (Z.shiftr v 4) in
      let v := Z.lor v (Z.shiftr v 8) in
      let v := Z.lor v (Z.shiftr v 16) in
      let v := u64 (v + 1) in
      v
    else if (PAGESIZE <? size) && ISP2 size then size
    else align in
  Z.max PAGESIZE align.

(** ** osif_malloc *)

Definition osif_malloc (size : Z) : M world address :=
  if KERNEL then
    let kr := -1 in
    tr <- call (EvIOMallocAligned size (osif_malloc_align size))
               (IOMallocAligned size (osif_malloc_align size)) ;;
    let kr := if VdevFile.non_null tr then KERN_SUCCESS else kr in
    if kr =? KERN_SUCCESS then
      modify_stats (fun s =>
        mk_stats (segkmem_total_mem_allocated s)
          (atomic_inc_64 (stat_osif_malloc_success s))
          (stat_osif_free s) (stat_osif_malloc_bytes s)
          (stat_osif_free_bytes s)) ;;
      modify_stats (fun s =>
        mk_stats (atomic_add_64 (segkmem_total_mem_allocated s) size)
          (stat_osif_malloc_success s)
          (stat_osif_free s) (stat_osif_malloc_bytes s)
          (stat_osif_free_bytes s)) ;;
      modify_stats (fun s =>
        mk_stats (segkmem_total_mem_allocated s)
          (stat_osif_malloc_success s)
          (stat_osif_free s) (atomic_add_64 (stat_osif_malloc_bytes s) size)
          (stat_osif_free_bytes s)) ;;
      ret tr
    else
      ret None
  else
    call (EvMalloc size) (malloc size).

(** ** osif_free *)

Definition osif_free (buf : address) (size : Z) : M world unit :=
  if KERNEL then
    call (EvIOFreeAligned buf size) (IOFreeAligned buf size) ;;
    modify_stats (fun s =>
      mk_stats (segkmem_total_mem_allocated s)
        (stat_osif_malloc_success s)
        (atomic_inc_64 (stat_osif_free s)) (stat_osif_malloc_bytes s)
        (stat_osif_free_bytes s)) ;;
    modify_stats (fun s =>
      mk_stats (atomic_sub_64 (segkmem_total_mem_allocated s) size)
        (stat_osif_malloc_success s)
        (stat_osif_free s) (stat_osif_malloc_bytes s)
        (stat_osif_free_bytes s)) ;;
    modify_stats (fun s =>
      mk_stats (segkmem_total_mem_allocated s)
        (stat_osif_malloc_success s)
        (stat_osif_free s) (stat_osif_malloc_bytes s)
        (atomic_add_64 (stat_osif_free_bytes s) size))
  else
    call (EvFree buf) (free buf).

(** ** segkmem_alloc, segkmem_free

    The arena [vmp] and the flags are not looked at. *)
Definition segkmem_alloc (size : Z) (maybe_unmasked_vmflag : Z)
  : M world address :=
  osif_malloc size.

Definition segkmem_free (inaddr : address) (size : Z) : M world unit :=
  osif_free inaddr size.

End WithPlatform.

Arguments world A : clear implicits.

(** An allocator to run the functions on: it hands out address 1 for every
    request of at most [limit] bytes and NULL above. *)
Definition sim_alloc (limit : Z) : AllocOps unit := {|
  IOMallocAligned := fun size _ a =>
    (if size <=? limit then Some 1%positive else None, a);
  IOFreeAligned := fun _ _ a => (tt, a);
  malloc := fun size a =>
    (if size <=? limit then Some 1%positive else None, a);
  free := fun _ a => (tt, a)
|}.

Definition zero_stats : kmem_stats := mk_stats 0 0 0 0 0.

(** The bytes the counters say are held: allocated minus freed, in 64
    bits. *)
Definition stats_balanced (s : kmem_stats) : Prop :=
  u64 (segkmem_total_mem_allocated s)
  = u64 (stat_osif_malloc_bytes s - stat_osif_free_bytes s).

End SegKmem.

(** * zvolIO.cpp: discard and geometry *)

Module ZvolUnmap.

Definition IOReturn_eqb (a b : ZvolIO.IOReturn) : bool :=
  match a, b with
  | ZvolIO.kIOReturnSuccess, ZvolIO.kIOReturnSuccess
  | ZvolIO.kIOReturnError, ZvolIO.kIOReturnError
  | ZvolIO.kIOReturnNotAttached, ZvolIO.kIOReturnNotAttached
  | ZvolIO.kIOReturnBadArgument, ZvolIO.kIOReturnBadArgument
  | ZvolIO.kIOReturnUnsupported, ZvolIO.kIOReturnUnsupported => true
  | _, _ => false
  end.

Record IOBlockStorageDeviceExtent : Type := mk_extent {
  blockStart : Z;
  blockCount : Z
}.

Inductive event : Type :=
| EvZvolUnmap (off bytes : Z).

(** The volume layer's [zvol_os_unmap]: 0 or an error. *)
Class UnmapOps (V : Type) : Type := {
  zvol_os_unmap : ZvolIO.zvol_state_t -> Z -> Z -> V -> Z * V
}.

(** The call [doDiscard] makes for one extent. *)
Definition discard_event (x : IOBlockStorageDeviceExtent) : event :=
  EvZvolUnmap (u64 (blockStart x * ZvolIO.ZVOL_BSIZE))
              (u64 (blockCount x * ZvolIO.ZVOL_BSIZE)).

Section WithVolume.

Context {V : Type} {um : UnmapOps V}.

Record world : Type := mk_world {
  w_vol : V;
  w_log : list event
}.

Definition call {A : Type} (e : event) (f : V -> A * V) : M world A :=
  fun w => let (a, v) := f (w_vol w) in
           Done a (mk_world v (w_log w ++ [e])).

(** ** doDiscard *)

Definition doDiscard (this : ZvolIO.zvol_device) (block nblks : Z)
  : M world ZvolIO.IOReturn :=
  let off := u64 (block * ZvolIO.ZVOL_BSIZE) in
  let bytes := u64 (nblks * ZvolIO.ZVOL_BSIZE) in
  e <- call (EvZvolUnmap off bytes)
            (zvol_os_unmap (ZvolIO.zv this) off bytes) ;;
  if e =? 0 then ret ZvolIO.kIOReturnSuccess else ret ZvolIO.kIOReturnError.

(** ** doUnmap

    The array [extents] and its count [extentsCount] are one list; [None]
    is a NULL array.  [doUnmap_loop] is the [for] loop over the extents
    still to do. *)
Fixpoint doUnmap_loop (this : ZvolIO.zvol_device)
    (extents : list IOBlockStorageDeviceExtent) : M world ZvolIO.IOReturn :=
  match extents with
  | [] => ret ZvolIO.kIOReturnSuccess
  | x :: rest =>
      result <- doDiscard this (blockStart x) (blockCount x) ;;
      if negb (IOReturn_eqb result ZvolIO.kIOReturnSuccess) then ret result
      else doUnmap_loop this rest
  end.

Definition doUnmap (this : ZvolIO.zvol_device)
    (extents : option (list IOBlockStorageDeviceExtent)) (options : Z)
  : M world ZvolIO.IOReturn :=
  if (0 <? options) || negb (VdevFile.non_null extents) then
    ret ZvolIO.kIOReturnUnsupported
  else
    doUnmap_loop this (match extents with Some l => l | None => [] end).

End WithVolume.

Arguments world V : clear implicits.

(** ** reportBlockSize, reportMaxValidBlock

    The argument is what the pointer points to, [None] for a NULL pointer;
    the answer pairs the status with what it points to afterwards. *)
Definition reportBlockSize (this : ZvolIO.zvol_device) (blockSize : option Z)
  : ZvolIO.IOReturn * option Z :=
  (ZvolIO.kIOReturnSuccess,
   match blockSize with
   | Some _ => Some ZvolIO.ZVOL_BSIZE
   | None => None
   end).

Definition reportMaxValidBlock (this : ZvolIO.zvol_device)
    (maxBlock : option Z) : ZvolIO.IOReturn * option Z :=
  (ZvolIO.kIOReturnSuccess,
   match maxBlock with
   | Some _ =>
       Some (u64 (ZvolIO.zv_volsize (ZvolIO.zv this) / ZvolIO.ZVOL_BSIZE - 1))
   | None => None
   end).

(** A volume layer that refuses every unmap that starts at byte offset
    [bad] and accepts the others. *)
Definition sim_unmap (bad : Z) : UnmapOps unit := {|
  zvol_os_unmap := fun _ off _ v => (if off =? bad then 5 else 0, v)
|}.

End ZvolUnmap.

(** * zvolIO.cpp: open, close and removal *)

Module ZvolOpen.

(** The fields of [zvol_state_os_t] and [zvol_state_t] that the open and
    close handlers look at; [None] is a NULL pointer. *)
Record zvol_state_os_t : Type := mk_zso {
  zvo_iokitdev : option positive;
  zvo_openflags : Z
}.

Record zvol_state_t : Type := mk_zv {
  zv_zso : option zvol_state_os_t
}.

(** The wrapper [zvol_iokit_t]: whether its [dev] points to the device. *)
Record zvol_iokit_t : Type := mk_iokit {
  dev : bool
}.

Inductive event : Type :=
| EvSuperHandleOpen (options argument : Z)
| EvSuperHandleClose (options : Z)
| EvZvolOpen (flag otyp : Z)
| EvZvolClose (flag otyp : Z)
| EvKmemFree.

(** The superclass and the volume layer; [zvol_os_open_zv] and
    [zvol_os_close_zv] answer 0 or an error. *)
Class KitOps (K : Type) : Type := {
  super_handleOpen : Z -> Z -> K -> bool * K;
  super_handleClose : Z -> K -> unit * K;
  zvol_os_open_zv : Z -> Z -> K -> Z * K;
  zvol_os_close_zv : Z -> Z -> K -> Z * K
}.

Section WithKit.

Context {K : Type} {kit : KitOps K}.

(** Flag values declared outside the files at hand. *)
Variable FREAD : Z.
Variable FWRITE : Z.
Variable ZVOL_EXCL : Z.
Variable kIOStorageAccessReaderWriter : Z.

(** The device's [zv] pointer with what it points to, the surroundings and
    the calls made. *)
Record world : Type := mk_world {
  w_kit : K;
  w_zv : option zvol_state_t;
  w_log : list event
}.

Definition call {A : Type} (e : event) (f : K -> A * K) : M world A :=
  fun w => let (a, k) := f (w_kit w) in
           Done a (mk_world k (w_zv w) (w_log w ++ [e])).

Definition get_zv : M world (option zvol_state_t) :=
  fun w => Done (w_zv w) w.

Definition set_zv (z : option zvol_state_t) : M world unit :=
  modify (fun w => mk_world (w_kit w) z (w_log w)).

(** [zv == NULL || zv->zv_zso == NULL || zv->zv_zso->zvo_iokitdev == NULL]:
    the state behind the device when it is not terminating. *)
Definition attached_zso (z : option zvol_state_t) : option zvol_state_os_t :=
  match z with
  | None => None
  | Some s =>
      match zv_zso s with
      | None => None
      | Some o =>
          match zvo_iokitdev o with
          | None => None
          | Some _ => Some o
          end
      end
  end.

(** ** handleOpen

    [access] is [argument] read as an [IOStorageAccess]. *)
Definition handleOpen (options access : Z) : M world bool :=
  ok <- call (EvSuperHandleOpen options access)
             (super_handleOpen options access) ;;
  if negb ok then ret false
  else
    z <- get_zv ;;
    match attached_zso z with
    | None => ret false
    | Some o =>
        let openflags :=
          if negb (Z.land access kIOStorageAccessReaderWriter =? 0)
          then Z.lor FWRITE ZVOL_EXCL
          else FREAD in
        e <- call (EvZvolOpen (zvo_openflags o) 0)
                  (zvol_os_open_zv (zvo_openflags o) 0) ;;
        let ret_ := e =? 0 in
        (if ret_
         then set_zv (Some (mk_zv (Some (mk_zso (zvo_iokitdev o) openflags))))
         else ret tt) ;;
        (if negb ret_
         then call (EvSuperHandleClose options) (super_handleClose options)
         else ret tt) ;;
        ret ret_
    end.

(** ** handleClose *)

Definition handleClose (options : Z) : M world unit :=
  call (EvSuperHandleClose options) (super_handleClose options) ;;
  z <- get_zv ;;
  match attached_zso z with
  | None => ret tt
  | Some o =>
      _ <- call (EvZvolClose (zvo_openflags o) 0)
                (zvol_os_close_zv (zvo_openflags o) 0) ;;
      ret tt
  end.

(** ** clearState *)

Definition clearState : M world unit := set_zv None.

(** ** zvolRemoveDevice

    The answer says whether a device is returned. *)
Definition zvolRemoveDevice (iokitdev : option zvol_iokit_t) : M world bool :=
  match iokitdev with
  | None => ret false
  | Some i =>
      let zvol := dev i in
      call EvKmemFree (fun k => (tt, k)) ;;
      if negb zvol then ret false
      else
        clearState ;;
        ret true
  end.

End WithKit.

Arguments world K : clear implicits.

(** Surroundings to run the handlers on: the superclass open answers
    [sup], the volume open answers [e]. *)
Definition sim_kit (sup : bool) (e : Z) : KitOps unit := {|
  super_handleOpen := fun _ _ k => (sup, k);
  super_handleClose := fun _ k => (tt, k);
  zvol_os_open_zv := fun _ _ k => (e, k);
  zvol_os_close_zv := fun _ _ k => (0, k)
|}.

(** A device attached to a volume whose stored open flags are [flags]. *)
Definition attached_zv (flags : Z) : option zvol_state_t :=
  Some (mk_zv (Some (mk_zso (Some 1%positive) flags))).

End ZvolOpen.

(** * Properties of vdev_file.c *)

Module VdevFileSpec.

Import VdevFile.

(** Unfolds one run of a function of the file down to the host's answers. *)
Ltac run :=
  unfold vdev_file_close, vdev_file_open, skip_open, vdev_file_io_strategy,
    vdev_file_io_start, deref_vf, get_vd, modify_vd, modify, emit, call, ask,
    ASSERT, VERIFY, bind, ret, panic;
  cbn.

(** The source's test on the path is the test "does not start with the root
    separator". *)
Lemma prefix_slash (c : ascii) (s : string) :
  prefix "/" (String c s) = Ascii.eqb c "/".
Proof.
  change (prefix "/" (String c s))
    with (if ascii_dec "/" c then prefix "" s else false).
  destruct (ascii_dec "/" c) as [<-|Hne].
  - rewrite Ascii.eqb_refl. destruct s; reflexivity.
  - symmetry. apply Ascii.eqb_neq. congruence.
Qed.

Lemma path_invalid_prefix (p : option string) :
  path_invalid p = true <->
  (forall s, p = Some s -> prefix "/" s = false).
Proof.
  destruct p as [[|c s]|]; unfold path_invalid, first_char.
  - split; [intros _ s Heq; injection Heq as <-|]; reflexivity.
  - rewrite negb_true_iff, <- (prefix_slash c s). split.
    + intros Hpre s' Heq. injection Heq as <-. exact Hpre.
    + intros Hpre. apply Hpre. reflexivity.
  - split; [intros _ s Heq; discriminate|reflexivity].
Qed.

Lemma path_valid_prefix (s : string) :
  prefix "/" s = true -> path_invalid (Some s) = false.
Proof.
  intros Hpre. destruct (path_invalid (Some s)) eqn:Hinv; [|reflexivity].
  apply path_invalid_prefix with (s := s) in Hinv; [congruence|reflexivity].
Qed.

Section WithHost.

Context {H : Type} {host : HostOps H}.

(** C9: [vdev_file_close] on a device that is mid-reopen or has no handle
    struct changes nothing at all (no host call, no free, same vdev).  On
    every other device it closes the file handle when there is one, frees
    the handle struct and sets [vdev_tsd] to NULL.  Hence a close made
    during a reopen leaves a device that a later close, made once the
    reopening flag is down, releases in full. *)
Theorem vdev_file_close_frame (w : world H) :
  ((vdev_reopening (w_vd w) = true \/ vdev_tsd (w_vd w) = None) ->
   vdev_file_close w = Done tt w)
  /\
  (forall vf,
     vdev_reopening (w_vd w) = false ->
     vdev_tsd (w_vd w) = Some vf ->
     vdev_file_close w =
     Done tt
       (mk_world
          (match vf_file vf with
           | Some f => snd (zfs_file_close (Some f) (w_host w))
           | None => w_host w
           end)
          (set_vdev_tsd None (set_vdev_delayed_close false (w_vd w)))
          (w_log w
           ++ match vf_file vf with
              | Some f => [EvFileClose (Some f)]
              | None => []
              end
           ++ [EvKmemFree])))
  /\
  (forall vf w1,
     vdev_reopening (w_vd w) = true ->
     vdev_tsd (w_vd w) = Some vf ->
     vdev_file_close w = Done tt w1 ->
     exists w2,
       vdev_file_close
         (mk_world (w_host w1) (set_vdev_reopening false (w_vd w1)) (w_log w1))
       = Done tt w2
       /\ vdev_tsd (w_vd w2) = None
       /\ w_log w2 =
          w_log w
          ++ match vf_file vf with
             | Some f => [EvFileClose (Some f)]
             | None => []
             end
          ++ [EvKmemFree]).
Proof.
  destruct w as [h vd l].
  assert (Hkeep : vdev_reopening vd = true \/ vdev_tsd vd = None ->
                  vdev_file_close (mk_world h vd l) = Done tt (mk_world h vd l)).
  { intros [Hre | Hnull]; run.
    - rewrite Hre. reflexivity.
    - rewrite Hnull. destruct (vdev_reopening vd); reflexivity. }
  assert (Hrel : forall vd' vf,
            vdev_reopening vd' = false -> vdev_tsd vd' = Some vf ->
            vdev_file_close (mk_world h vd' l) =
            Done tt
              (mk_world
                 (match vf_file vf with
                  | Some f => snd (zfs_file_close (Some f) h)
                  | None => h
                  end)
                 (set_vdev_tsd None (set_vdev_delayed_close false vd'))
                 (l ++ match vf_file vf with
                       | Some f => [EvFileClose (Some f)]
                       | None => []
                       end ++ [EvKmemFree]))).
  { intros vd' vf Hre Htsd. run. rewrite Hre, Htsd.
    destruct (vf_file vf) as [f|]; cbn.
    - destruct (zfs_file_close (Some f) h) as [[] h']. cbn.
      rewrite <- app_assoc. reflexivity.
    - reflexivity. }
  cbn [w_vd w_host w_log]. split; [exact Hkeep|]. split; [apply Hrel|].
  intros vf w1 Hre Htsd Hrun.
  rewrite Hkeep in Hrun by (left; exact Hre).
  injection Hrun as <-. cbn [w_vd w_host w_log].
  eexists. split.
  - apply (Hrel (set_vdev_reopening false vd) vf); [reflexivity|exact Htsd].
  - split; reflexivity.
Qed.

(** C6: when the device path is NULL or does not start with the root
    separator (the empty string included), [vdev_file_open] returns
    [EINVAL]; the host state and the call log are as before, so no host
    open call was made, and the four outputs are untouched. *)
Theorem vdev_file_open_bad_path (KERNEL : bool) (w : world H) (outs : open_out) :
  (forall s, vdev_path (w_vd w) = Some s -> prefix "/" s = false) ->
  vdev_file_open KERNEL outs w =
  Done (EINVAL, outs)
    (mk_world (w_host w)
       (set_vs_aux VDEV_AUX_BAD_LABEL
          (set_vdev_has_securetrim false
             (set_vdev_has_trim true (set_vdev_nonrot true (w_vd w)))))
       (w_log w)).
Proof.
  intros Hpath. apply path_invalid_prefix in Hpath.
  run. rewrite Hpath. reflexivity.
Qed.

(** C7: with an absolute path, when the host calls that
    [vdev_file_open] makes all succeed, it returns 0, writes the size the
    last attribute call reports to both [psize] and [max_psize], and writes
    [SPA_MINBLOCKSHIFT] to both [ashift] and [physical_ashift].  The calls
    are: on a first open, the open call and two attribute calls; on a
    reopen in the kernel (handle struct present, reopening flag set), one
    attribute call. *)
Theorem vdev_file_open_success (KERNEL : bool) (w : world H) (outs : open_out)
    (s : string) (size : Z) :
  vdev_path (w_vd w) = Some s ->
  prefix "/" s = true ->
  ((KERNEL = false \/ vdev_tsd (w_vd w) = None) /\
   exists fp h1 zfa1 h2 zfa h3,
     zfs_file_open s (vdev_file_open_mode (vdev_spa_mode (w_vd w))) 0
       (w_host w) = ((0, fp), h1) /\
     zfs_file_getattr fp h1 = ((0, zfa1), h2) /\
     zfs_file_getattr fp h2 = ((0, zfa), h3) /\
     zfa_size zfa = size)
  \/
  (KERNEL = true /\ vdev_reopening (w_vd w) = true /\
   exists vf zfa h1,
     vdev_tsd (w_vd w) = Some vf /\
     zfs_file_getattr (vf_file vf) (w_host w) = ((0, zfa), h1) /\
     zfa_size zfa = size) ->
  exists w',
    vdev_file_open KERNEL outs w =
    Done (0, mk_out size size SPA_MINBLOCKSHIFT SPA_MINBLOCKSHIFT) w'.
Proof.
  intros Hpath Habs Hcalls. apply path_valid_prefix in Habs.
  destruct Hcalls as
    [[Hfresh (fp & h1 & zfa1 & h2 & zfa & h3 & Hopen & Hattr1 & Hattr2 & Hsize)]
    | (Hk & Hre & vf & zfa & h1 & Htsd & Hattr & Hsize)].
  - assert (Hgate : KERNEL && non_null (vdev_tsd (w_vd w)) = false).
    { destruct Hfresh as [-> | ->]; [reflexivity|apply andb_false_r]. }
    run. rewrite Hpath in *. rewrite Habs, Hgate. cbn.
    rewrite Hopen. cbn. rewrite Hattr1. cbn. rewrite Hattr2. cbn.
    subst size. eexists. reflexivity.
  - run. rewrite Hpath in *. rewrite Habs, Hk, Htsd, Hre. cbn.
    rewrite Htsd. cbn. rewrite Hattr. cbn. subst size. eexists. reflexivity.
Qed.

(** One run of the worker, given the host's answer to the positioned call
    it makes. *)
Lemma vdev_file_io_strategy_run (w : world H) (zio : zio_t) (vf : vdev_file_t)
    (err resid : Z) (h' : H) :
  vdev_tsd (w_vd w) = Some vf ->
  (io_type zio = ZIO_TYPE_READ ->
   zfs_file_pread (vf_file vf) (s64 (io_size zio)) (s64 (io_offset zio)) 0
     (w_host w) = ((err, resid), h')) ->
  (io_type zio <> ZIO_TYPE_READ ->
   zfs_file_pwrite (vf_file vf) (s64 (io_size zio)) (s64 (io_offset zio)) 0
     (w_host w) = ((err, resid), h')) ->
  let zio' :=
    set_io_error
      (if negb (err =? 0) then EIO
       else if negb (resid =? 0) then ENOSPC else 0) zio in
  vdev_file_io_strategy zio w =
  Done zio'
    (mk_world h' (w_vd w)
       (w_log w
        ++ [if zio_type_eqb (io_type zio) ZIO_TYPE_READ
            then EvFilePread (vf_file vf) (s64 (io_size zio))
                   (s64 (io_offset zio))
            else EvFilePwrite (vf_file vf) (s64 (io_size zio))
                   (s64 (io_offset zio));
            EvZioDelayInterrupt zio'])).
Proof.
  intros Htsd Hrd Hwr. run. rewrite Htsd.
  destruct (io_type zio) eqn:Hty; cbn;
    try (rewrite Hrd by reflexivity);
    try (rewrite Hwr by discriminate);
    cbn; destruct (err =? 0); cbn; destruct (resid =? 0); cbn;
    rewrite <- app_assoc; reflexivity.
Qed.

(** C2: the worker [vdev_file_io_strategy] makes one positioned call (a
    read for a read request, a write otherwise).  If the call answers a
    non-zero error the request's error becomes [EIO]; if it answers 0 with
    a non-zero residual the error becomes [ENOSPC]; if it answers 0 with a
    zero residual the error is 0.  Nothing else of the request changes, and
    the worker then signals completion through [zio_delay_interrupt]. *)
Theorem vdev_file_io_strategy_error (w : world H) (zio : zio_t)
    (vf : vdev_file_t) (err resid : Z) (h' : H) :
  vdev_tsd (w_vd w) = Some vf ->
  (io_type zio = ZIO_TYPE_READ ->
   zfs_file_pread (vf_file vf) (s64 (io_size zio)) (s64 (io_offset zio)) 0
     (w_host w) = ((err, resid), h')) ->
  (io_type zio <> ZIO_TYPE_READ ->
   zfs_file_pwrite (vf_file vf) (s64 (io_size zio)) (s64 (io_offset zio)) 0
     (w_host w) = ((err, resid), h')) ->
  exists zio',
    vdev_file_io_strategy zio w =
    Done zio'
      (mk_world h' (w_vd w)
         (w_log w
          ++ [if zio_type_eqb (io_type zio) ZIO_TYPE_READ
              then EvFilePread (vf_file vf) (s64 (io_size zio))
                     (s64 (io_offset zio))
              else EvFilePwrite (vf_file vf) (s64 (io_size zio))
                     (s64 (io_offset zio));
              EvZioDelayInterrupt zio']))
    /\ zio' = set_io_error (io_error zio') zio
    /\ (err <> 0 -> io_error zio' = EIO)
    /\ (err = 0 -> resid <> 0 -> io_error zio' = ENOSPC)
    /\ (err = 0 -> resid = 0 -> io_error zio' = 0).
Proof.
  intros Htsd Hrd Hwr.
  eexists. split; [apply (vdev_file_io_strategy_run w zio vf err resid h');
                   assumption|].
  cbn. split; [reflexivity|].
  repeat split.
  - intros Herr. apply Z.eqb_neq in Herr. rewrite Herr. reflexivity.
  - intros -> Hres. apply Z.eqb_neq in Hres. rewrite Hres. reflexivity.
  - intros -> ->. reflexivity.
Qed.

(** C3, as the code has it: a read request whose positioned read answers no
    error but a non-zero residual (fewer bytes than requested) gets the
    error [ENOSPC], and so does a write request whose positioned write
    does: a short transfer is an out-of-space error on both paths, and the
    residual is not handed back as a count. *)
Theorem vdev_file_io_strategy_short (w : world H) (zio : zio_t)
    (vf : vdev_file_t) (resid : Z) (h' : H) :
  vdev_tsd (w_vd w) = Some vf ->
  (io_type zio = ZIO_TYPE_READ ->
   zfs_file_pread (vf_file vf) (s64 (io_size zio)) (s64 (io_offset zio)) 0
     (w_host w) = ((0, resid), h')) ->
  (io_type zio <> ZIO_TYPE_READ ->
   zfs_file_pwrite (vf_file vf) (s64 (io_size zio)) (s64 (io_offset zio)) 0
     (w_host w) = ((0, resid), h')) ->
  resid <> 0 ->
  vdev_file_io_strategy zio w =
  Done (set_io_error ENOSPC zio)
    (mk_world h' (w_vd w)
       (w_log w
        ++ [if zio_type_eqb (io_type zio) ZIO_TYPE_READ
            then EvFilePread (vf_file vf) (s64 (io_size zio))
                   (s64 (io_offset zio))
            else EvFilePwrite (vf_file vf) (s64 (io_size zio))
                   (s64 (io_offset zio));
            EvZioDelayInterrupt (set_io_error ENOSPC zio)])).
Proof.
  intros Htsd Hrd Hwr Hres.
  rewrite (vdev_file_io_strategy_run w zio vf 0 resid h' Htsd Hrd Hwr).
  apply Z.eqb_neq in Hres. rewrite Hres. reflexivity.
Qed.

(** C4, as the code has it: an ioctl request that arrives while the device
    is not readable gets the error [ENXIO] and is completed at once through
    [zio_interrupt]; no host call is made and nothing is handed to the task
    queue. *)
Theorem vdev_file_io_start_unreadable_ioctl (w : world H) (zio : zio_t) :
  io_type zio = ZIO_TYPE_IOCTL ->
  vdev_readable (w_vd w) = false ->
  exists evs,
    vdev_file_io_start zio w =
    Done (set_io_error ENXIO zio)
      (mk_world (w_host w) (w_vd w) (w_log w ++ evs))
    /\ evs = [EvZioInterrupt (set_io_error ENXIO zio)]
    /\ filter is_host_call evs = []
    /\ filter is_dispatch evs = [].
Proof.
  intros Hty Hrd. eexists. split.
  - run. rewrite Hty, Hrd. reflexivity.
  - repeat split; reflexivity.
Qed.

(** C5: an ioctl request on a readable device.  If the sub-command is
    [DKIOCFLUSHWRITECACHE] the request's error is what the host's fsync
    call answers; otherwise it is [ENOTSUP] and no host call is made.
    Either way the request is completed within the call, once, through
    [zio_execute], and nothing is handed to the task queue. *)
Theorem vdev_file_io_start_ioctl (w : world H) (zio : zio_t) :
  io_type zio = ZIO_TYPE_IOCTL ->
  vdev_readable (w_vd w) = true ->
  (forall vf e h',
     io_cmd zio = DKIOCFLUSHWRITECACHE ->
     vdev_tsd (w_vd w) = Some vf ->
     zfs_file_fsync (vf_file vf) (Z.lor O_SYNC O_DSYNC) (w_host w) = (e, h') ->
     exists evs,
       vdev_file_io_start zio w =
       Done (set_io_error e zio) (mk_world h' (w_vd w) (w_log w ++ evs))
       /\ evs = [EvFileFsync (vf_file vf) (Z.lor O_SYNC O_DSYNC);
                 EvZioExecute (set_io_error e zio)]
       /\ filter is_dispatch evs = []
       /\ filter is_completion evs = [EvZioExecute (set_io_error e zio)])
  /\
  (io_cmd zio <> DKIOCFLUSHWRITECACHE ->
   exists evs,
     vdev_file_io_start zio w =
     Done (set_io_error ENOTSUP zio)
       (mk_world (w_host w) (w_vd w) (w_log w ++ evs))
     /\ evs = [EvZioExecute (set_io_error ENOTSUP zio)]
     /\ filter is_dispatch evs = []
     /\ filter is_host_call evs = []).
Proof.
  intros Hty Hrd. split.
  - intros vf e h' Hcmd Htsd Hsync. eexists. split.
    + run. rewrite Hty, Hrd. cbn. rewrite Hcmd, Z.eqb_refl, Htsd. cbn.
      change (Z.lor O_SYNC O_DSYNC) with 4194432 in Hsync.
      rewrite Hsync. cbn. rewrite <- app_assoc. reflexivity.
    + repeat split; reflexivity.
  - intros Hcmd. eexists. split.
    + run. rewrite Hty, Hrd. cbn.
      apply Z.eqb_neq in Hcmd. rewrite Hcmd. reflexivity.
    + repeat split; reflexivity.
Qed.

(** C8: a trim request of length zero stops at the assertion on the trim
    path, in the state it arrived in: the host's fallocate call is not
    reached.  A trim request of non-zero length passes the assertion, and
    its fallocate call carries that non-zero length. *)
Theorem vdev_file_io_start_trim (w : world H) (zio : zio_t) :
  io_type zio = ZIO_TYPE_TRIM ->
  (io_size zio = 0 ->
   vdev_file_io_start zio w = Panic (ASSERT_failed 242) w)
  /\
  (forall vf e h',
     io_size zio <> 0 ->
     vdev_tsd (w_vd w) = Some vf ->
     zfs_file_fallocate (vf_file vf) 0 (io_offset zio) (io_size zio)
       (w_host w) = (e, h') ->
     vdev_file_io_start zio w =
     Done (set_io_error e zio)
       (mk_world h' (w_vd w)
          (w_log w
           ++ [EvFileFallocate (vf_file vf) 0 (io_offset zio) (io_size zio);
               EvZioExecute (set_io_error e zio)]))).
Proof.
  intros Hty. split.
  - intros Hsz. run. rewrite Hty, Hsz. destruct w. reflexivity.
  - intros vf e h' Hsz Htsd Hfa. run. rewrite Hty. cbn.
    apply Z.eqb_neq in Hsz. rewrite Hsz, Htsd. cbn.
    rewrite Hfa. cbn. rewrite <- app_assoc. reflexivity.
Qed.

End WithHost.

(** ** The theorems at concrete devices *)

Lemma vdev_file_close_frame_witness :
  vdev_file_close (host := good_host) (sample_world (open_vdev true))
  = Done tt (sample_world (open_vdev true))
  /\
  vdev_file_close (host := good_host) (sample_world (open_vdev false))
  = Done tt
      (mk_world tt
         (set_vdev_tsd None (set_vdev_delayed_close false (open_vdev false)))
         [EvFileClose (Some 1%positive); EvKmemFree])
  /\
  exists w2,
    vdev_file_close (host := good_host)
      (mk_world tt (set_vdev_reopening false (open_vdev true)) [])
    = Done tt w2
    /\ vdev_tsd (w_vd w2) = None
    /\ w_log w2 = [EvFileClose (Some 1%positive); EvKmemFree].
Proof.
  split; [|split].
  - apply (proj1 (vdev_file_close_frame (host := good_host)
                    (sample_world (open_vdev true)))).
    left. reflexivity.
  - apply (proj1 (proj2 (vdev_file_close_frame (host := good_host)
                           (sample_world (open_vdev false))))
             (mk_vf (Some 1%positive))); reflexivity.
  - apply (proj2 (proj2 (vdev_file_close_frame (host := good_host)
                           (sample_world (open_vdev true))))
             (mk_vf (Some 1%positive)) (sample_world (open_vdev true)));
      reflexivity.
Defined.

Lemma vdev_file_open_bad_path_witness :
  vdev_file_open (host := good_host) true (mk_out 0 0 0 0)
    (sample_world (closed_vdev (Some "pool.img"%string)))
  = Done (EINVAL, mk_out 0 0 0 0)
      (mk_world tt
         (mk_vdev (Some "pool.img"%string) None false true true false false
            VDEV_AUX_BAD_LABEL (Z.lor SPA_MODE_READ SPA_MODE_WRITE)) [])
  /\
  vdev_file_open (host := good_host) true (mk_out 0 0 0 0)
    (sample_world (closed_vdev (Some ""%string)))
  = Done (EINVAL, mk_out 0 0 0 0)
      (mk_world tt
         (mk_vdev (Some ""%string) None false true true false false
            VDEV_AUX_BAD_LABEL (Z.lor SPA_MODE_READ SPA_MODE_WRITE)) [])
  /\
  vdev_file_open (host := good_host) true (mk_out 0 0 0 0)
    (sample_world (closed_vdev None))
  = Done (EINVAL, mk_out 0 0 0 0)
      (mk_world tt
         (mk_vdev None None false true true false false
            VDEV_AUX_BAD_LABEL (Z.lor SPA_MODE_READ SPA_MODE_WRITE)) []).
Proof.
  split; [|split].
  - apply (vdev_file_open_bad_path (host := good_host) true
             (sample_world (closed_vdev (Some "pool.img"%string)))).
    intros s Heq. injection Heq as <-. reflexivity.
  - apply (vdev_file_open_bad_path (host := good_host) true
             (sample_world (closed_vdev (Some ""%string)))).
    intros s Heq. injection Heq as <-. reflexivity.
  - apply (vdev_file_open_bad_path (host := good_host) true
             (sample_world (closed_vdev None))).
    intros s Heq. discriminate.
Defined.

Lemma vdev_file_open_success_witness :
  (exists w',
     vdev_file_open (host := good_host) true (mk_out 0 0 0 0)
       (sample_world (closed_vdev (Some "/tmp/pool.img"%string)))
     = Done (0, mk_out 1048576 1048576 9 9) w')
  /\
  (exists w',
     vdev_file_open (host := good_host) true (mk_out 0 0 0 0)
       (sample_world (open_vdev true))
     = Done (0, mk_out 1048576 1048576 9 9) w').
Proof.
  split.
  - apply (vdev_file_open_success (host := good_host) true
             (sample_world (closed_vdev (Some "/tmp/pool.img"%string)))
             (mk_out 0 0 0 0) "/tmp/pool.img" 1048576);
      [reflexivity|reflexivity|].
    left. split; [right; reflexivity|].
    exists (Some 1%positive), tt, (mk_zfa 1048576 0), tt,
      (mk_zfa 1048576 0), tt.
    repeat split; reflexivity.
  - apply (vdev_file_open_success (host := good_host) true
             (sample_world (open_vdev true))
             (mk_out 0 0 0 0) "/tmp/pool.img" 1048576);
      [reflexivity|reflexivity|].
    right. split; [reflexivity|]. split; [reflexivity|].
    exists (mk_vf (Some 1%positive)), (mk_zfa 1048576 0), tt.
    repeat split; reflexivity.
Defined.

Lemma vdev_file_io_strategy_error_witness :
  (exists zio' w',
     vdev_file_io_strategy (host := failing_host)
       (sample_zio ZIO_TYPE_WRITE 0 0 4096) (sample_world (open_vdev false))
     = Done zio' w' /\ io_error zio' = EIO)
  /\
  (exists zio' w',
     vdev_file_io_strategy (host := short_host)
       (sample_zio ZIO_TYPE_WRITE 0 0 4096) (sample_world (open_vdev false))
     = Done zio' w' /\ io_error zio' = ENOSPC)
  /\
  (exists zio' w',
     vdev_file_io_strategy (host := good_host)
       (sample_zio ZIO_TYPE_READ 0 0 4096) (sample_world (open_vdev false))
     = Done zio' w' /\ io_error zio' = 0).
Proof.
  split; [|split].
  - destruct (vdev_file_io_strategy_error (host := failing_host)
                (sample_world (open_vdev false))
                (sample_zio ZIO_TYPE_WRITE 0 0 4096)
                (mk_vf (Some 1%positive)) 5 0 tt)
      as (zio' & Hrun & _ & Hio & _ & _);
      [reflexivity|discriminate|reflexivity|].
    exists zio'. eexists. split; [exact Hrun|apply Hio; discriminate].
  - destruct (vdev_file_io_strategy_error (host := short_host)
                (sample_world (open_vdev false))
                (sample_zio ZIO_TYPE_WRITE 0 0 4096)
                (mk_vf (Some 1%positive)) 0 512 tt)
      as (zio' & Hrun & _ & _ & Hshort & _);
      [reflexivity|discriminate|reflexivity|].
    exists zio'. eexists.
    split; [exact Hrun|apply Hshort; [reflexivity|discriminate]].
  - destruct (vdev_file_io_strategy_error (host := good_host)
                (sample_world (open_vdev false))
                (sample_zio ZIO_TYPE_READ 0 0 4096)
                (mk_vf (Some 1%positive)) 0 0 tt)
      as (zio' & Hrun & _ & _ & _ & Hok);
      [reflexivity|reflexivity|intros Hne; exfalso; apply Hne; reflexivity|].
    exists zio'. eexists. split; [exact Hrun|apply Hok; reflexivity].
Defined.

(** C3 fails as stated: a read that comes back 512 bytes short with no host
    error ends with the error [ENOSPC], which is not success. *)
Lemma short_read_is_an_error :
  vdev_file_io_strategy (host := short_host)
    (sample_zio ZIO_TYPE_READ 0 0 4096) (sample_world (open_vdev false))
  = Done (mk_zio ZIO_TYPE_READ 0 0 4096 ENOSPC 0)
      (mk_world tt (open_vdev false)
         [EvFilePread (Some 1%positive) 4096 0;
          EvZioDelayInterrupt (mk_zio ZIO_TYPE_READ 0 0 4096 ENOSPC 0)])
  /\ ENOSPC <> 0.
Proof.
  split; [reflexivity|discriminate].
Qed.

Lemma vdev_file_io_strategy_short_witness :
  vdev_file_io_strategy (host := short_host)
    (sample_zio ZIO_TYPE_READ 0 0 4096) (sample_world (open_vdev false))
  = Done (set_io_error ENOSPC (sample_zio ZIO_TYPE_READ 0 0 4096))
      (mk_world tt (open_vdev false)
         [EvFilePread (Some 1%positive) 4096 0;
          EvZioDelayInterrupt
            (set_io_error ENOSPC (sample_zio ZIO_TYPE_READ 0 0 4096))])
  /\
  vdev_file_io_strategy (host := short_host)
    (sample_zio ZIO_TYPE_WRITE 0 0 4096) (sample_world (open_vdev false))
  = Done (set_io_error ENOSPC (sample_zio ZIO_TYPE_WRITE 0 0 4096))
      (mk_world tt (open_vdev false)
         [EvFilePwrite (Some 1%positive) 4096 0;
          EvZioDelayInterrupt
            (set_io_error ENOSPC (sample_zio ZIO_TYPE_WRITE 0 0 4096))]).
Proof.
  split.
  - apply (vdev_file_io_strategy_short (host := short_host)
             (sample_world (open_vdev false))
             (sample_zio ZIO_TYPE_READ 0 0 4096)
             (mk_vf (Some 1%positive)) 512 tt);
      [reflexivity|reflexivity|reflexivity|discriminate].
  - apply (vdev_file_io_strategy_short (host := short_host)
             (sample_world (open_vdev false))
             (sample_zio ZIO_TYPE_WRITE 0 0 4096)
             (mk_vf (Some 1%positive)) 512 tt);
      [reflexivity|discriminate|reflexivity|discriminate].
Defined.

(** C4 fails as stated: a read request that arrives while the device is
    not readable is handed to the task queue, and its error stays 0. *)
Lemma unreadable_read_is_dispatched :
  vdev_readable (HostOps := unreadable_host) (open_vdev false) = false
  /\
  vdev_file_io_start (host := unreadable_host)
    (sample_zio ZIO_TYPE_READ 0 0 4096) (sample_world (open_vdev false))
  = Done (sample_zio ZIO_TYPE_READ 0 0 4096)
      (mk_world tt (open_vdev false)
         [EvTaskqDispatch (sample_zio ZIO_TYPE_READ 0 0 4096)])
  /\ existsb is_dispatch
       [EvTaskqDispatch (sample_zio ZIO_TYPE_READ 0 0 4096)] = true
  /\ io_error (sample_zio ZIO_TYPE_READ 0 0 4096) <> ENXIO.
Proof.
  split; [reflexivity|]. split; [reflexivity|].
  split; [reflexivity|discriminate].
Qed.

Lemma vdev_file_io_start_unreadable_ioctl_witness :
  vdev_file_io_start (host := unreadable_host)
    (sample_zio ZIO_TYPE_IOCTL 1058 0 0) (sample_world (open_vdev false))
  = Done (set_io_error ENXIO (sample_zio ZIO_TYPE_IOCTL 1058 0 0))
      (mk_world tt (open_vdev false)
         [EvZioInterrupt
            (set_io_error ENXIO (sample_zio ZIO_TYPE_IOCTL 1058 0 0))]).
Proof.
  destruct (vdev_file_io_start_unreadable_ioctl (host := unreadable_host)
              (sample_world (open_vdev false))
              (sample_zio ZIO_TYPE_IOCTL 1058 0 0))
    as (evs & Hrun & Hevs & _ & _); [reflexivity|reflexivity|].
  rewrite Hrun, Hevs. reflexivity.
Defined.

Lemma vdev_file_io_start_ioctl_witness :
  vdev_file_io_start (host := good_host)
    (sample_zio ZIO_TYPE_IOCTL 1058 0 0) (sample_world (open_vdev false))
  = Done (sample_zio ZIO_TYPE_IOCTL 1058 0 0)
      (mk_world tt (open_vdev false)
         [EvFileFsync (Some 1%positive) (Z.lor O_SYNC O_DSYNC);
          EvZioExecute (sample_zio ZIO_TYPE_IOCTL 1058 0 0)])
  /\
  vdev_file_io_start (host := good_host)
    (sample_zio ZIO_TYPE_IOCTL 7 0 0) (sample_world (open_vdev false))
  = Done (set_io_error ENOTSUP (sample_zio ZIO_TYPE_IOCTL 7 0 0))
      (mk_world tt (open_vdev false)
         [EvZioExecute (set_io_error ENOTSUP (sample_zio ZIO_TYPE_IOCTL 7 0 0))]).
Proof.
  split.
  - destruct (proj1 (vdev_file_io_start_ioctl (host := good_host)
                       (sample_world (open_vdev false))
                       (sample_zio ZIO_TYPE_IOCTL 1058 0 0)
                       eq_refl eq_refl)
                (mk_vf (Some 1%positive)) 0 tt)
      as (evs & Hrun & Hevs & _ & _);
      [reflexivity|reflexivity|reflexivity|].
    rewrite Hrun, Hevs. reflexivity.
  - destruct (proj2 (vdev_file_io_start_ioctl (host := good_host)
                       (sample_world (open_vdev false))
                       (sample_zio ZIO_TYPE_IOCTL 7 0 0)
                       eq_refl eq_refl))
      as (evs & Hrun & Hevs & _ & _); [discriminate|].
    rewrite Hrun, Hevs. reflexivity.
Defined.

Lemma vdev_file_io_start_trim_witness :
  vdev_file_io_start (host := good_host)
    (sample_zio ZIO_TYPE_TRIM 0 8192 0) (sample_world (open_vdev false))
  = Panic (ASSERT_failed 242) (sample_world (open_vdev false))
  /\
  vdev_file_io_start (host := good_host)
    (sample_zio ZIO_TYPE_TRIM 0 8192 4096) (sample_world (open_vdev false))
  = Done (sample_zio ZIO_TYPE_TRIM 0 8192 4096)
      (mk_world tt (open_vdev false)
         [EvFileFallocate (Some 1%positive) 0 8192 4096;
          EvZioExecute (sample_zio ZIO_TYPE_TRIM 0 8192 4096)]).
Proof.
  split.
  - apply (proj1 (vdev_file_io_start_trim (host := good_host)
                    (sample_world (open_vdev false))
                    (sample_zio ZIO_TYPE_TRIM 0 8192 0) eq_refl)).
    reflexivity.
  - apply (proj2 (vdev_file_io_start_trim (host := good_host)
                    (sample_world (open_vdev false))
                    (sample_zio ZIO_TYPE_TRIM 0 8192 4096) eq_refl)
             (mk_vf (Some 1%positive)) 0 tt);
      [discriminate|reflexivity|reflexivity].
Defined.

End VdevFileSpec.

(** * Properties of zvolIO.cpp *)

Module ZvolIOSpec.

Import ZvolIO.

Ltac run :=
  unfold doAsyncReadWrite, emit, call, bind, ret; cbn.

Section WithVolume.

Context {V : Type} {vol : ZvolOps V}.

Lemma u64_small (x : Z) : 0 <= x < 2 ^ 64 -> u64 x = x.
Proof. intros Hx. unfold u64. apply Z.mod_small. exact Hx. Qed.

(** What [doAsyncReadWrite] does with a request that fails one of its two
    range tests. *)
Lemma doAsyncReadWrite_rejects (this : zvol_device)
    (buffer : IOMemoryDescriptor) (block nblks : Z) (w : world V) :
  zv_volsize (zv this) <= u64 (block * ZVOL_BSIZE)
  \/ zv_volsize (zv this) < u64 (u64 (block + nblks) * ZVOL_BSIZE) ->
  doAsyncReadWrite this buffer block nblks w =
  Done (if isInactive this then kIOReturnNotAttached
        else if VdevFile.non_null (zv_dn (zv this))
             then kIOReturnBadArgument
             else kIOReturnNotAttached) w.
Proof.
  intros Hout. run.
  destruct (isInactive this); [reflexivity|].
  destruct (zv_dn (zv this)) as [dn|]; cbn; [|reflexivity].
  destruct (Z.leb_spec (zv_volsize (zv this)) (u64 (block * ZVOL_BSIZE)))
    as [Hstart | Hstart]; [reflexivity|].
  destruct (Z.ltb_spec (zv_volsize (zv this))
              (u64 (u64 (block + nblks) * ZVOL_BSIZE)))
    as [Hend | Hend]; [reflexivity|].
  unfold ZVOL_BSIZE, DEV_BSIZE in *. lia.
Qed.

(** C1, as the code has it: a request whose byte range, with the start
    [block * ZVOL_BSIZE] and the end [(block + nblks) * ZVOL_BSIZE] computed
    in 64 bits as the method computes them, lies outside the volume is
    turned down in the state it arrived in: no volume read or write is
    made, the completion action is not called, and nothing is shortened.
    The status is [kIOReturnBadArgument] when the device is active and has
    its dnode, and [kIOReturnNotAttached] when it is inactive or has none,
    since those two tests come first. *)
Theorem doAsyncReadWrite_out_of_range (this : zvol_device)
    (buffer : IOMemoryDescriptor) (block nblks : Z) (w : world V) :
  zv_volsize (zv this) <= u64 (block * ZVOL_BSIZE)
  \/ zv_volsize (zv this) < u64 (u64 (block + nblks) * ZVOL_BSIZE) ->
  exists r,
    doAsyncReadWrite this buffer block nblks w = Done r w
    /\ r <> kIOReturnSuccess
    /\ (isInactive this = false -> zv_dn (zv this) <> None ->
        r = kIOReturnBadArgument)
    /\ (isInactive this = true \/ zv_dn (zv this) = None ->
        r = kIOReturnNotAttached).
Proof.
  intros Hout. eexists. split; [apply doAsyncReadWrite_rejects; exact Hout|].
  destruct (isInactive this).
  - repeat split; try discriminate; reflexivity.
  - destruct (zv_dn (zv this)) as [dn|]; cbn.
    + repeat split; try discriminate. intros [Hf | Hf]; discriminate.
    + repeat split; try discriminate. intros _ Hf. congruence.
Qed.

(** The same on plain integers, for a request whose end offset fits in
    64 bits: on an active device with its dnode, a range that starts at or
    beyond the volume size, or ends past it, is turned down with
    [kIOReturnBadArgument] and nothing is done. *)
Lemma doAsyncReadWrite_out_of_range_exact (this : zvol_device)
    (buffer : IOMemoryDescriptor) (block nblks : Z) (w : world V) :
  0 <= block -> 0 <= nblks ->
  (block + nblks) * ZVOL_BSIZE < 2 ^ 64 ->
  isInactive this = false ->
  zv_dn (zv this) <> None ->
  zv_volsize (zv this) <= block * ZVOL_BSIZE
  \/ zv_volsize (zv this) < (block + nblks) * ZVOL_BSIZE ->
  doAsyncReadWrite this buffer block nblks w = Done kIOReturnBadArgument w.
Proof.
  intros Hb Hn Hfit Hin Hdn Hout.
  unfold ZVOL_BSIZE, DEV_BSIZE in *.
  rewrite doAsyncReadWrite_rejects.
  - rewrite Hin. destruct (zv_dn (zv this)); [reflexivity|congruence].
  - unfold ZVOL_BSIZE, DEV_BSIZE.
    rewrite (u64_small (block + nblks)) by lia.
    rewrite (u64_small (block * 512)) by lia.
    rewrite (u64_small ((block + nblks) * 512)) by lia.
    exact Hout.
Qed.

(** C10: a request that passes every check of [doAsyncReadWrite] (device
    active, dnode present, range inside the volume, direction in or out)
    makes one volume call, then calls the completion action exactly once,
    with the status [kIOReturnSuccess], and returns [kIOReturnSuccess],
    whatever the volume call answered.  A failed volume call shows only in
    the byte count handed to the completion action, which is then 0; after
    a successful one it is [nblks * ZVOL_BSIZE]. *)
Theorem doAsyncReadWrite_completes (this : zvol_device)
    (buffer : IOMemoryDescriptor) (block nblks : Z) (w : world V)
    (e : Z) (v' : V) :
  isInactive this = false ->
  zv_dn (zv this) <> None ->
  u64 (block * ZVOL_BSIZE) < zv_volsize (zv this) ->
  u64 (u64 (block + nblks) * ZVOL_BSIZE) <= zv_volsize (zv this) ->
  (getDirection buffer = kIODirectionIn /\
   zvol_os_read_zv (zv this) (u64 (block * ZVOL_BSIZE))
     (u64 (nblks * ZVOL_BSIZE)) (w_vol w) = (e, v'))
  \/
  (getDirection buffer = kIODirectionOut /\
   zvol_os_write_zv (zv this) (u64 (block * ZVOL_BSIZE))
     (u64 (nblks * ZVOL_BSIZE)) (w_vol w) = (e, v')) ->
  exists evs actual,
    doAsyncReadWrite this buffer block nblks w =
    Done kIOReturnSuccess (mk_world v' (w_log w ++ evs))
    /\ evs =
       [if IODirection_eqb (getDirection buffer) kIODirectionIn
        then EvZvolRead (u64 (block * ZVOL_BSIZE)) (u64 (nblks * ZVOL_BSIZE))
        else EvZvolWrite (u64 (block * ZVOL_BSIZE)) (u64 (nblks * ZVOL_BSIZE));
        EvCompletion kIOReturnSuccess actual]
    /\ filter is_completion evs = [EvCompletion kIOReturnSuccess actual]
    /\ (e <> 0 -> actual = 0)
    /\ (e = 0 -> actual = u64 (nblks * ZVOL_BSIZE)).
Proof.
  intros Hin Hdn Hstart Hend Hdir.
  exists [if IODirection_eqb (getDirection buffer) kIODirectionIn
          then EvZvolRead (u64 (block * ZVOL_BSIZE)) (u64 (nblks * ZVOL_BSIZE))
          else EvZvolWrite (u64 (block * ZVOL_BSIZE)) (u64 (nblks * ZVOL_BSIZE));
          EvCompletion kIOReturnSuccess
            (if negb (e =? 0) then 0 else u64 (nblks * ZVOL_BSIZE))].
  exists (if negb (e =? 0) then 0 else u64 (nblks * ZVOL_BSIZE)).
  split.
  - unfold doAsyncReadWrite. rewrite Hin.
    destruct (zv_dn (zv this)) as [dn|]; [|congruence]. cbn [VdevFile.non_null negb].
    apply Z.leb_gt in Hstart. rewrite Hstart.
    apply Z.ltb_ge in Hend. rewrite Hend.
    destruct Hdir as [[-> Hcall] | [-> Hcall]]; cbn [IODirection_eqb negb andb];
      unfold emit, call, bind, ret; rewrite Hcall; cbn;
      rewrite <- app_assoc; reflexivity.
  - split; [reflexivity|]. split.
    + destruct (IODirection_eqb (getDirection buffer) kIODirectionIn);
        reflexivity.
    + split.
      * intros He. apply Z.eqb_neq in He. rewrite He. reflexivity.
      * intros ->. reflexivity.
Qed.

End WithVolume.

(** ** The theorems at concrete devices *)

(** C1 fails as stated: on a device that has been terminated, a request
    that starts beyond the end of the volume is turned down with
    [kIOReturnNotAttached], not with the bad-argument status. *)
Lemma inactive_out_of_range_not_attached :
  zv_volsize (zv (mk_dev true (mk_zv (Some 1%positive) 1048576)))
  <= u64 (4096 * ZVOL_BSIZE)
  /\
  doAsyncReadWrite (vol := sim_volume 0 0)
    (mk_dev true (mk_zv (Some 1%positive) 1048576))
    (mk_buf kIODirectionIn) 4096 8 (mk_world tt [])
  = Done kIOReturnNotAttached (mk_world tt [])
  /\ kIOReturnNotAttached <> kIOReturnBadArgument.
Proof.
  split; [vm_compute; discriminate|]. split; [reflexivity|discriminate].
Qed.

Lemma doAsyncReadWrite_out_of_range_witness :
  doAsyncReadWrite (vol := sim_volume 0 0) (attached 1048576)
    (mk_buf kIODirectionIn) 4096 8 (mk_world tt [])
  = Done kIOReturnBadArgument (mk_world tt [])
  /\
  doAsyncReadWrite (vol := sim_volume 0 0) (attached 1048576)
    (mk_buf kIODirectionOut) 2040 16 (mk_world tt [])
  = Done kIOReturnBadArgument (mk_world tt []).
Proof.
  split.
  - destruct (doAsyncReadWrite_out_of_range (vol := sim_volume 0 0)
                (attached 1048576) (mk_buf kIODirectionIn) 4096 8
                (mk_world tt []))
      as (r & Hrun & _ & Hbad & _).
    + left. vm_compute. discriminate.
    + rewrite Hrun. f_equal. apply Hbad; [reflexivity|discriminate].
  - destruct (doAsyncReadWrite_out_of_range (vol := sim_volume 0 0)
                (attached 1048576) (mk_buf kIODirectionOut) 2040 16
                (mk_world tt []))
      as (r & Hrun & _ & Hbad & _).
    + right. vm_compute. reflexivity.
    + rewrite Hrun. f_equal. apply Hbad; [reflexivity|discriminate].
Defined.

Lemma doAsyncReadWrite_completes_witness :
  doAsyncReadWrite (vol := sim_volume 5 0) (attached 1048576)
    (mk_buf kIODirectionIn) 8 8 (mk_world tt [])
  = Done kIOReturnSuccess
      (mk_world tt [EvZvolRead 4096 4096; EvCompletion kIOReturnSuccess 0])
  /\
  doAsyncReadWrite (vol := sim_volume 5 0) (attached 1048576)
    (mk_buf kIODirectionOut) 8 8 (mk_world tt [])
  = Done kIOReturnSuccess
      (mk_world tt [EvZvolWrite 4096 4096; EvCompletion kIOReturnSuccess 4096]).
Proof.
  split.
  - destruct (doAsyncReadWrite_completes (vol := sim_volume 5 0)
                (attached 1048576) (mk_buf kIODirectionIn) 8 8
                (mk_world tt []) 5 tt)
      as (evs & actual & Hrun & Hevs & _ & Hfail & _);
      [reflexivity|discriminate|reflexivity|vm_compute; discriminate| |].
    + left. split; reflexivity.
    + rewrite Hrun, Hevs, Hfail by discriminate. reflexivity.
  - destruct (doAsyncReadWrite_completes (vol := sim_volume 5 0)
                (attached 1048576) (mk_buf kIODirectionOut) 8 8
                (mk_world tt []) 0 tt)
      as (evs & actual & Hrun & Hevs & _ & _ & Hok);
      [reflexivity|discriminate|reflexivity|vm_compute; discriminate| |].
    + right. split; reflexivity.
    + rewrite Hrun, Hevs, Hok by reflexivity. reflexivity.
Defined.

(** The range tests are made on 64-bit products: a block number of 2^55
    wraps to byte offset 0 and the request is carried out there. *)
Example doAsyncReadWrite_wraps :
  doAsyncReadWrite (vol := sim_volume 0 0) (attached 1048576)
    (mk_buf kIODirectionIn) (2 ^ 55) 1 (mk_world tt [])
  = Done kIOReturnSuccess
      (mk_world tt [EvZvolRead 0 512; EvCompletion kIOReturnSuccess 512]).
Proof. reflexivity. Qed.

End ZvolIOSpec.

(** * Properties of spl-seg_kmem.c *)

Module SegKmemSpec.

Import SegKmem.

(** ** The bit smearing of [osif_malloc] *)

(** One [v |= v >> s] step doubles the window of bits of [x] that each bit
    of [v] collects. *)
Lemma smear_step (x y s : Z) :
  0 <= s ->
  (forall i, 0 <= i ->
     (Z.testbit y i = true <->
      exists d, 0 <= d < s /\ Z.testbit x (i + d) = true)) ->
  forall i, 0 <= i ->
    (Z.testbit (Z.lor y (Z.shiftr y s)) i = true <->
     exists d, 0 <= d < 2 * s /\ Z.testbit x (i + d) = true).
Proof.
  intros Hs Hy i Hi.
  rewrite Z.lor_spec, Z.shiftr_spec, orb_true_iff by exact Hi.
  rewrite (Hy i Hi), (Hy (i + s)) by lia.
  split.
  - intros [(d & Hd & Hb) | (d & Hd & Hb)].
    + exists d. split; [lia|exact Hb].
    + exists (s + d). split; [lia|].
      replace (i + (s + d)) with (i + s + d) by lia. exact Hb.
  - intros (d & Hd & Hb).
    destruct (Z_lt_le_dec d s) as [Hlt | Hge].
    + left. exists d. split; [lia|exact Hb].
    + right. exists (d - s). split; [lia|].
      replace (i + s + (d - s)) with (i + d) by lia. exact Hb.
Qed.

Lemma smear_window (x : Z) :
  forall i, 0 <= i ->
    (Z.testbit (smear x) i = true <->
     exists d, 0 <= d < 32 /\ Z.testbit x (i + d) = true).
Proof.
  unfold smear.
  apply (smear_step x _ 16); [lia|].
  apply (smear_step x _ 8); [lia|].
  apply (smear_step x _ 4); [lia|].
  apply (smear_step x _ 2); [lia|].
  apply (smear_step x _ 1); [lia|].
  intros i Hi. split.
  - intros Hb. exists 0. split; [lia|]. rewrite Z.add_0_r. exact Hb.
  - intros (d & Hd & Hb). replace (i + d) with i in Hb by lia. exact Hb.
Qed.

(** Smearing a 32-bit value sets every bit below its top bit. *)
Lemma smear_ones (x : Z) :
  0 < x < 2 ^ 32 -> smear x = Z.ones (Z.log2 x + 1).
Proof.
  intros Hx.
  assert (Hlog : 0 <= Z.log2 x < 32).
  { split; [apply Z.log2_nonneg|]. apply Z.log2_lt_pow2; lia. }
  apply Z.bits_inj'. intros i Hi.
  destruct (Z_lt_le_dec i (Z.log2 x + 1)) as [Hlow | Hhigh].
  - rewrite Z.ones_spec_low by lia.
    apply smear_window; [exact Hi|].
    exists (Z.log2 x - i). split; [lia|].
    replace (i + (Z.log2 x - i)) with (Z.log2 x) by lia.
    apply Z.bit_log2. lia.
  - rewrite Z.ones_spec_high by lia.
    destruct (Z.testbit (smear x) i) eqn:Hb; [|reflexivity].
    apply smear_window in Hb; [|exact Hi].
    destruct Hb as (d & Hd & Hb).
    rewrite Z.bits_above_log2 in Hb by lia. discriminate.
Qed.

(** What the smearing branch computes: the power of two just above
    [size - 1]. *)
Lemma smear_branch (size : Z) :
  1 < size < 2 ^ 32 ->
  u64 (smear (u64 (size - 1)) + 1) = 2 ^ (Z.log2 (size - 1) + 1)
  /\ size <= 2 ^ (Z.log2 (size - 1) + 1) < 2 * size.
Proof.
  intros Hs.
  assert (Hlog : 0 <= Z.log2 (size - 1) < 32).
  { split; [apply Z.log2_nonneg|]. apply Z.log2_lt_pow2; lia. }
  assert (Hspec := Z.log2_spec (size - 1) ltac:(lia)).
  rewrite <- Z.add_1_r in Hspec.
  assert (Hdbl : 2 ^ (Z.log2 (size - 1) + 1) = 2 * 2 ^ Z.log2 (size - 1)).
  { rewrite Z.add_1_r. apply Z.pow_succ_r. lia. }
  assert (Hpow : 2 ^ (Z.log2 (size - 1) + 1) <= 2 ^ 32).
  { apply Z.pow_le_mono_r; lia. }
  split; [|lia].
  unfold u64 at 2. rewrite Z.mod_small by lia.
  rewrite smear_ones by lia.
  rewrite Z.ones_equiv. unfold u64.
  rewrite Z.mod_small; lia.
Qed.

(** The usual [ISP2] holds of a positive number only if it is a power of
    two. *)
Lemma ISP2_usual_sound (x : Z) :
  0 < x -> ISP2_usual x = true -> exists j, 0 <= j /\ x = 2 ^ j.
Proof.
  intros Hx Hp. unfold ISP2_usual in Hp. apply Z.eqb_eq in Hp.
  exists (Z.log2 x). split; [apply Z.log2_nonneg|].
  destruct (Z.log2_spec x Hx) as [Hlo Hhi].
  destruct (Z.eq_dec x (2 ^ Z.log2 x)) as [Heq | Hne]; [exact Heq|].
  exfalso.
  assert (Hl1 : Z.log2 (x - 1) = Z.log2 x).
  { apply Z.log2_unique; [apply Z.log2_nonneg|]. lia. }
  assert (Hb1 : Z.testbit x (Z.log2 x) = true).
  { apply Z.bit_log2. exact Hx. }
  assert (Hb2 : Z.testbit (x - 1) (Z.log2 x) = true).
  { rewrite <- Hl1. apply Z.bit_log2.
    pose proof (Z.pow_pos_nonneg 2 (Z.log2 x) ltac:(lia) (Z.log2_nonneg x)).
    lia. }
  assert (Hbit : Z.testbit (Z.land x (x - 1)) (Z.log2 x) = true).
  { rewrite Z.land_spec, Hb1, Hb2. reflexivity. }
  rewrite Hp in Hbit. rewrite Z.bits_0 in Hbit. discriminate.
Qed.

Section WithPlatform.

Context {A : Type} {alloc : AllocOps A}.

Variable PAGESIZE : Z.
Variable ISP2 : Z -> bool.

(** X1: for every request below [UINT32_MAX] bytes, the alignment that
    [osif_malloc] asks of [IOMallocAligned] is at least the larger of the
    size and the page size and less than twice that; when the page size is
    a power of two and [ISP2] only accepts powers of two, it is a power of
    two as well, hence the smallest power of two that covers both. *)
Theorem osif_malloc_align_enclosing (size : Z) :
  0 <= size < UINT32_MAX ->
  0 < PAGESIZE ->
  Z.max size PAGESIZE <= osif_malloc_align PAGESIZE ISP2 size
                       < 2 * Z.max size PAGESIZE
  /\ ((exists k, 0 <= k /\ PAGESIZE = 2 ^ k) ->
      (forall x, 0 < x -> ISP2 x = true -> exists j, 0 <= j /\ x = 2 ^ j) ->
      exists j, 0 <= j /\ osif_malloc_align PAGESIZE ISP2 size = 2 ^ j).
Proof.
  intros Hsize Hpage. unfold UINT32_MAX in Hsize. unfold osif_malloc_align.
  destruct (Z.ltb_spec PAGESIZE size) as [Hbig | Hsmall]; cbn [andb].
  - destruct (ISP2 size) eqn:Hp2; cbn [andb negb].
    + rewrite (Z.max_r PAGESIZE size) by lia. split; [lia|].
      intros _ Hsound. apply Hsound; [lia|exact Hp2].
    + destruct (Z.ltb_spec size UINT32_MAX) as [Hlt | Hge];
        [|unfold UINT32_MAX in Hge; lia].
      destruct (smear_branch size ltac:(lia)) as [Heq Hbound].
      unfold smear in Heq. rewrite Heq.
      rewrite (Z.max_r PAGESIZE (2 ^ (Z.log2 (size - 1) + 1))) by lia.
      split; [lia|].
      intros _ _. exists (Z.log2 (size - 1) + 1).
      split; [|reflexivity].
      pose proof (Z.log2_nonneg (size - 1)). lia.
  - rewrite Z.max_id. split; [lia|].
    intros Hk _. exact Hk.
Qed.

(** X2: for a request of [UINT32_MAX] bytes or more the alignment does not
    follow the size upwards unless [ISP2] accepts the size: it is the page
    size when [ISP2] rejects the size, and the size itself when [ISP2]
    accepts it. *)
Theorem osif_malloc_align_huge (size : Z) :
  UINT32_MAX <= size ->
  PAGESIZE < size ->
  osif_malloc_align PAGESIZE ISP2 size =
  if ISP2 size then size else PAGESIZE.
Proof.
  intros Hhuge Hbig. unfold osif_malloc_align.
  destruct (Z.ltb_spec PAGESIZE size) as [_ | Hc]; [|lia].
  destruct (Z.ltb_spec size UINT32_MAX) as [Hc | _]; [lia|].
  destruct (ISP2 size); cbn [andb negb].
  - apply Z.max_r. lia.
  - apply Z.max_id.
Qed.

Lemma u64_add_l (a b : Z) : u64 (u64 a + b) = u64 (a + b).
Proof. unfold u64. apply Z.add_mod_idemp_l. lia. Qed.

Lemma u64_sub_l (a b : Z) : u64 (u64 a - b) = u64 (a - b).
Proof. unfold u64. apply Zminus_mod_idemp_l. Qed.

Lemma u64_sub_r (a b : Z) : u64 (a - u64 b) = u64 (a - b).
Proof. unfold u64. apply Zminus_mod_idemp_r. Qed.

Lemma u64_idem (a : Z) : u64 (u64 a) = u64 a.
Proof. unfold u64. apply Z.mod_mod. lia. Qed.

(** X3: in the kernel, [osif_malloc] and [osif_free] keep the counters
    consistent: if the total held equals bytes allocated minus bytes freed
    (in 64 bits) before the call, it does after, whatever the allocator
    answers and whatever size is passed.  An allocation the allocator
    refuses returns NULL and changes no counter at all. *)
Theorem osif_stats_balanced (w : world A) (size : Z) (buf : address) :
  stats_balanced (w_stats w) ->
  (exists tr w',
     osif_malloc true PAGESIZE ISP2 size w = Done tr w'
     /\ stats_balanced (w_stats w')
     /\ (tr = None -> w_stats w' = w_stats w))
  /\
  (exists w',
     osif_free true buf size w = Done tt w'
     /\ stats_balanced (w_stats w')).
Proof.
  unfold stats_balanced. intros Hbal. destruct w as [a [tot ms fr mb fb] l].
  cbn in Hbal. split.
  - unfold osif_malloc, call, modify_stats, modify, bind, ret. cbn.
    destruct (IOMallocAligned size (osif_malloc_align PAGESIZE ISP2 size) a)
      as [[p|] a']; cbn.
    + eexists. eexists. split; [reflexivity|]. cbn. split; [|discriminate].
      unfold atomic_add_64.
      rewrite u64_idem, u64_sub_l, <- u64_add_l, Hbal, u64_add_l.
      f_equal. lia.
    + eexists. eexists. split; [reflexivity|]. cbn. split; [exact Hbal|].
      reflexivity.
  - unfold osif_free, call, modify_stats, modify, bind, ret. cbn.
    destruct (IOFreeAligned buf size a) as [[] a']; cbn.
    eexists. split; [reflexivity|]. cbn.
    unfold atomic_sub_64, atomic_add_64.
    rewrite u64_idem, u64_sub_r, <- u64_sub_l, Hbal, u64_sub_l.
    f_equal. lia.
Qed.

(** X4: in the kernel, an allocation that succeeds followed by the free of
    the same buffer with the same size brings the total held back to what
    it was, counts one allocation and one free, and makes exactly the two
    allocator calls, the free naming the address and size of the
    allocation. *)
Theorem osif_malloc_free_round_trip (w : world A) (size : Z) (p : positive)
    (a1 a2 : A) :
  0 <= segkmem_total_mem_allocated (w_stats w) < 2 ^ 64 ->
  IOMallocAligned size (osif_malloc_align PAGESIZE ISP2 size) (w_alloc w)
  = (Some p, a1) ->
  IOFreeAligned (Some p) size a1 = (tt, a2) ->
  exists st',
    (tr <- osif_malloc true PAGESIZE ISP2 size ;;
     osif_free true tr size) w =
    Done tt
      (mk_world a2 st'
         (w_log w
          ++ [EvIOMallocAligned size (osif_malloc_align PAGESIZE ISP2 size);
              EvIOFreeAligned (Some p) size]))
    /\ segkmem_total_mem_allocated st'
       = segkmem_total_mem_allocated (w_stats w)
    /\ stat_osif_malloc_success st'
       = u64 (stat_osif_malloc_success (w_stats w) + 1)
    /\ stat_osif_free st' = u64 (stat_osif_free (w_stats w) + 1).
Proof.
  intros Htot Hm Hf. destruct w as [a [tot ms fr mb fb] l]. cbn in *.
  unfold osif_malloc, osif_free, call, modify_stats, modify, bind, ret. cbn.
  rewrite Hm. cbn. rewrite Hf. cbn.
  eexists. split; [rewrite <- app_assoc; reflexivity|]. cbn.
  split; [|split; reflexivity].
  unfold atomic_sub_64, atomic_add_64. rewrite u64_sub_l.
  replace (tot + size - size) with tot by lia.
  unfold u64. apply Z.mod_small. exact Htot.
Qed.

End WithPlatform.

(** ** The theorems at concrete sizes *)

Lemma osif_malloc_align_enclosing_witness :
  osif_malloc_align 4096 ISP2_usual 5000 = 8192
  /\ Z.max 5000 4096 <= osif_malloc_align 4096 ISP2_usual 5000
                      < 2 * Z.max 5000 4096
  /\ exists j, 0 <= j /\ osif_malloc_align 4096 ISP2_usual 5000 = 2 ^ j.
Proof.
  split; [reflexivity|].
  destruct (osif_malloc_align_enclosing 4096 ISP2_usual 5000)
    as [Hbound Hpow]; [unfold UINT32_MAX; lia|lia|].
  split; [exact Hbound|].
  apply Hpow.
  - exists 12. split; [lia|reflexivity].
  - apply ISP2_usual_sound.
Defined.

Lemma osif_malloc_align_huge_witness :
  osif_malloc_align 4096 ISP2_usual (2 ^ 33) = 2 ^ 33
  /\ osif_malloc_align 4096 ISP2_usual (2 ^ 33 + 1) = 4096.
Proof.
  split.
  - rewrite (osif_malloc_align_huge 4096 ISP2_usual (2 ^ 33));
      [reflexivity|unfold UINT32_MAX; lia|lia].
  - rewrite (osif_malloc_align_huge 4096 ISP2_usual (2 ^ 33 + 1));
      [reflexivity|unfold UINT32_MAX; lia|lia].
Defined.

Lemma osif_stats_balanced_witness :
  (exists tr w',
     osif_malloc (alloc := sim_alloc 65536) true 4096 ISP2_usual 100000
       (mk_world tt zero_stats []) = Done tr w'
     /\ stats_balanced (w_stats w')
     /\ (tr = None -> w_stats w' = zero_stats))
  /\
  (exists w',
     osif_free (alloc := sim_alloc 65536) true (Some 1%positive) 100000
       (mk_world tt zero_stats []) = Done tt w'
     /\ stats_balanced (w_stats w')).
Proof.
  apply (osif_stats_balanced (alloc := sim_alloc 65536) 4096 ISP2_usual
           (mk_world tt zero_stats []) 100000 (Some 1%positive)).
  reflexivity.
Defined.

Lemma osif_malloc_free_round_trip_witness :
  exists st',
    (tr <- osif_malloc (alloc := sim_alloc 65536) true 4096 ISP2_usual 8192 ;;
     osif_free (alloc := sim_alloc 65536) true tr 8192)
      (mk_world tt zero_stats []) =
    Done tt
      (mk_world tt st'
         ([] ++ [EvIOMallocAligned 8192
                   (osif_malloc_align 4096 ISP2_usual 8192);
                 EvIOFreeAligned (Some 1%positive) 8192]))
    /\ segkmem_total_mem_allocated st' = 0
    /\ stat_osif_malloc_success st' = u64 (0 + 1)
    /\ stat_osif_free st' = u64 (0 + 1).
Proof.
  apply (osif_malloc_free_round_trip (alloc := sim_alloc 65536) 4096
           ISP2_usual (mk_world tt zero_stats []) 8192 1%positive tt tt);
    [cbn; lia|reflexivity|reflexivity].
Defined.

End SegKmemSpec.

(** * More properties of vdev_file.c *)

Module VdevFileMore.

Import VdevFile VdevFileHosts.

Ltac run :=
  unfold open_then_close, close_then_open, submit_and_work, vdev_file_close, vdev_file_open,
    skip_open, vdev_file_io_strategy,
    vdev_file_io_start, deref_vf, get_vd, modify_vd, modify, emit, call, ask,
    ASSERT, VERIFY, bind, ret, panic;
  cbn.

Ltac run_in Hyp :=
  unfold open_then_close, close_then_open, submit_and_work, vdev_file_close, vdev_file_open,
    skip_open, vdev_file_io_strategy,
    vdev_file_io_start, deref_vf, get_vd, modify_vd, modify, emit, call, ask,
    ASSERT, VERIFY, bind, ret, panic in Hyp;
  cbn in Hyp.

(** Splits a run that is known to have ended on every test and host answer
    it went through. *)
Ltac break_run Hyp :=
  repeat match type of Hyp with
         | context [match ?x with _ => _ end] =>
             lazymatch x with
             | context [match _ with _ => _ end] => fail
             | _ => destruct x eqn:?; cbn in Hyp
             end
         end;
  try discriminate.

(** One bit of a mask, by bits. *)
Lemma land_pow2 (m k : Z) :
  0 <= k -> (Z.land m (2 ^ k) =? 0) = negb (Z.testbit m k).
Proof.
  intros Hk. destruct (Z.testbit m k) eqn:Hb; cbn.
  - apply Z.eqb_neq. intros Hz.
    assert (Hbit : Z.testbit (Z.land m (2 ^ k)) k = true).
    { rewrite Z.land_spec, Hb, Z.pow2_bits_true by exact Hk. reflexivity. }
    rewrite Hz, Z.bits_0 in Hbit. discriminate.
  - apply Z.eqb_eq. apply Z.bits_inj'. intros i Hi.
    rewrite Z.land_spec, Z.bits_0.
    destruct (Z.eq_dec i k) as [-> | Hne].
    + rewrite Hb. reflexivity.
    + rewrite Z.pow2_bits_false by lia. apply andb_false_r.
Qed.

(** X5: the open mode depends on bits 0 (read) and 1 (write) of the pool
    mode only: read-write when both are set, write-only when only the
    write bit is, and read-only otherwise, also when neither bit is set;
    [O_LARGEFILE] adds nothing. *)
Theorem vdev_file_open_mode_bits (spa_mode : Z) :
  vdev_file_open_mode spa_mode =
  if Z.testbit spa_mode 1
  then (if Z.testbit spa_mode 0 then O_RDWR else O_WRONLY)
  else O_RDONLY.
Proof.
  unfold vdev_file_open_mode, SPA_MODE_READ, SPA_MODE_WRITE.
  change (Z.land spa_mode 1) with (Z.land spa_mode (2 ^ 0)).
  change (Z.land spa_mode 2) with (Z.land spa_mode (2 ^ 1)).
  rewrite !land_pow2 by lia. rewrite !negb_involutive.
  destruct (Z.testbit spa_mode 0), (Z.testbit spa_mode 1); reflexivity.
Qed.

Section WithHost.

Context {H : Type} {host : HostOps H}.

(** X6: whenever [vdev_file_open] returns, either it returns an error and
    the four outputs are as the caller left them, or it returns 0 and has
    written the same size to [psize] and [max_psize] and
    [SPA_MINBLOCKSHIFT] to both shifts.  An error is never paired with
    written outputs. *)
Theorem vdev_file_open_outputs (KERNEL : bool) (w w' : world H)
    (outs outs' : open_out) (e : Z) :
  vdev_file_open KERNEL outs w = Done (e, outs') w' ->
  (e <> 0 /\ outs' = outs)
  \/ (e = 0 /\ psize outs' = max_psize outs'
      /\ ashift outs' = SPA_MINBLOCKSHIFT
      /\ physical_ashift outs' = SPA_MINBLOCKSHIFT).
Proof.
  intros Hrun. destruct w as [h [path tsd re nr ht hs dc aux sm] l].
  run_in Hrun. break_run Hrun;
    injection Hrun as <- <- <-;
    try (left; split; [|reflexivity];
         first [discriminate
               | match goal with
                 | Hz : negb (?x =? 0) = true |- ?x <> 0 =>
                     apply negb_true_iff in Hz; apply Z.eqb_neq in Hz; exact Hz
                 end]);
    right; repeat split; reflexivity.
Qed.

(** X7: whenever [vdev_file_open] returns, with or without an error, the
    device is marked non-rotational and trim-capable and not secure-trim
    capable, and its path, its reopening flag and its pool mode are as
    before. *)
Theorem vdev_file_open_flags (KERNEL : bool) (w w' : world H)
    (outs : open_out) (r : Z * open_out) :
  vdev_file_open KERNEL outs w = Done r w' ->
  vdev_nonrot (w_vd w') = true
  /\ vdev_has_trim (w_vd w') = true
  /\ vdev_has_securetrim (w_vd w') = false
  /\ vdev_path (w_vd w') = vdev_path (w_vd w)
  /\ vdev_reopening (w_vd w') = vdev_reopening (w_vd w)
  /\ vdev_spa_mode (w_vd w') = vdev_spa_mode (w_vd w).
Proof.
  intros Hrun. destruct w as [h [path tsd re nr ht hs dc aux sm] l].
  run_in Hrun. break_run Hrun;
    injection Hrun as <- <-; repeat split; reflexivity.
Qed.

(** X8: a first open whose host open call fails returns the host's error
    and marks the device [VDEV_AUX_OPEN_FAILED]; the handle struct it
    allocated holds no file, and the close that follows frees that struct
    without any host call.  Allocation and free are balanced and the
    device ends with no handle struct. *)
Theorem open_failed_then_close (KERNEL : bool) (w : world H) (outs : open_out)
    (s : string) (e : Z) (fp : zfs_file_ptr) (h1 : H) :
  vdev_path (w_vd w) = Some s ->
  prefix "/" s = true ->
  KERNEL = false \/ vdev_tsd (w_vd w) = None ->
  vdev_reopening (w_vd w) = false ->
  zfs_file_open s (vdev_file_open_mode (vdev_spa_mode (w_vd w))) 0 (w_host w)
  = ((e, fp), h1) ->
  e <> 0 ->
  exists vd',
    open_then_close KERNEL outs w =
    Done (e, outs)
      (mk_world h1 vd'
         (w_log w
          ++ [EvKmemZalloc;
              EvFileOpen s (vdev_file_open_mode (vdev_spa_mode (w_vd w))) 0;
              EvKmemFree]))
    /\ vdev_tsd vd' = None
    /\ vs_aux vd' = VDEV_AUX_OPEN_FAILED.
Proof.
  intros Hpath Habs Hfresh Hre Hopen He.
  apply VdevFileSpec.path_valid_prefix in Habs.
  assert (Hgate : KERNEL && non_null (vdev_tsd (w_vd w)) = false).
  { destruct Hfresh as [-> | ->]; [reflexivity|apply andb_false_r]. }
  apply Z.eqb_neq in He.
  destruct w as [h [path tsd re nr ht hs dc aux sm] l]. cbn in *. subst path re.
  run. rewrite Habs, Hgate. cbn. rewrite Hopen. cbn. rewrite He. cbn.
  eexists. split; [rewrite <- !app_assoc; reflexivity|].
  split; reflexivity.
Qed.

(** X9: a first open that succeeds, followed by a close, closes the very
    handle the host's open call returned, then frees the handle struct:
    the calls are, in order, allocate, open, two attribute calls, close,
    free, and the device ends with no handle struct. *)
Theorem open_then_close_round_trip (KERNEL : bool) (w : world H)
    (outs : open_out) (s : string) (f : positive)
    (zfa1 zfa : zfs_file_attr_t) (h1 h2 h3 h4 : H) :
  vdev_path (w_vd w) = Some s ->
  prefix "/" s = true ->
  KERNEL = false \/ vdev_tsd (w_vd w) = None ->
  vdev_reopening (w_vd w) = false ->
  zfs_file_open s (vdev_file_open_mode (vdev_spa_mode (w_vd w))) 0 (w_host w)
  = ((0, Some f), h1) ->
  zfs_file_getattr (Some f) h1 = ((0, zfa1), h2) ->
  zfs_file_getattr (Some f) h2 = ((0, zfa), h3) ->
  zfs_file_close (Some f) h3 = (tt, h4) ->
  exists vd',
    open_then_close KERNEL outs w =
    Done (0, mk_out (zfa_size zfa) (zfa_size zfa)
               SPA_MINBLOCKSHIFT SPA_MINBLOCKSHIFT)
      (mk_world h4 vd'
         (w_log w
          ++ [EvKmemZalloc;
              EvFileOpen s (vdev_file_open_mode (vdev_spa_mode (w_vd w))) 0;
              EvFileGetattr (Some f);
              EvFileGetattr (Some f);
              EvFileClose (Some f);
              EvKmemFree]))
    /\ vdev_tsd vd' = None.
Proof.
  intros Hpath Habs Hfresh Hre Hopen Hattr1 Hattr2 Hclose.
  apply VdevFileSpec.path_valid_prefix in Habs.
  assert (Hgate : KERNEL && non_null (vdev_tsd (w_vd w)) = false).
  { destruct Hfresh as [-> | ->]; [reflexivity|apply andb_false_r]. }
  destruct w as [h [path tsd re nr ht hs dc aux sm] l]. cbn in *. subst path re.
  run. rewrite Habs, Hgate. cbn. rewrite Hopen. cbn.
  rewrite Hattr1. cbn. rewrite Hattr2. cbn. rewrite Hclose. cbn.
  eexists. split; [rewrite <- !app_assoc; reflexivity|].
  reflexivity.
Qed.

(** X10: when the host opens the file but the attribute call right after
    fails, [vdev_file_open] returns [ENODEV] whatever error the host gave,
    leaves the outputs and the device's [vs_aux] as they were, and keeps
    the opened file in the handle struct, where a later close finds it. *)
Theorem vdev_file_open_nodev (KERNEL : bool) (w : world H) (outs : open_out)
    (s : string) (fp : zfs_file_ptr) (e1 : Z) (zfa1 : zfs_file_attr_t)
    (h1 h2 : H) :
  vdev_path (w_vd w) = Some s ->
  prefix "/" s = true ->
  KERNEL = false \/ vdev_tsd (w_vd w) = None ->
  zfs_file_open s (vdev_file_open_mode (vdev_spa_mode (w_vd w))) 0 (w_host w)
  = ((0, fp), h1) ->
  zfs_file_getattr fp h1 = ((e1, zfa1), h2) ->
  e1 <> 0 ->
  exists vd',
    vdev_file_open KERNEL outs w =
    Done (ENODEV, outs)
      (mk_world h2 vd'
         (w_log w
          ++ [EvKmemZalloc;
              EvFileOpen s (vdev_file_open_mode (vdev_spa_mode (w_vd w))) 0;
              EvFileGetattr fp]))
    /\ vdev_tsd vd' = Some (mk_vf fp)
    /\ vs_aux vd' = vs_aux (w_vd w).
Proof.
  intros Hpath Habs Hfresh Hopen Hattr1 He.
  apply VdevFileSpec.path_valid_prefix in Habs.
  assert (Hgate : KERNEL && non_null (vdev_tsd (w_vd w)) = false).
  { destruct Hfresh as [-> | ->]; [reflexivity|apply andb_false_r]. }
  apply Z.eqb_neq in He.
  destruct w as [h [path tsd re nr ht hs dc aux sm] l]. cbn in *. subst path.
  run. rewrite Habs, Hgate. cbn. rewrite Hopen. cbn.
  rewrite Hattr1. cbn. rewrite He. cbn.
  eexists. split; [rewrite <- !app_assoc; reflexivity|].
  split; reflexivity.
Qed.

(** X11: the reopen sequence in the kernel.  With the reopening flag set
    and a handle struct present, a close followed by an open makes one
    host call, the attribute call on the file already held: nothing is
    closed, freed, allocated or opened, and the handle struct is the same
    afterwards.  If that call fails its error is returned, the device is
    marked [VDEV_AUX_OPEN_FAILED] and the outputs are untouched; otherwise
    the outputs carry the refreshed size. *)
Theorem close_then_open_reopening (w : world H) (outs : open_out)
    (s : string) (vf : vdev_file_t) (e : Z) (zfa : zfs_file_attr_t) (h1 : H) :
  vdev_path (w_vd w) = Some s ->
  prefix "/" s = true ->
  vdev_reopening (w_vd w) = true ->
  vdev_tsd (w_vd w) = Some vf ->
  zfs_file_getattr (vf_file vf) (w_host w) = ((e, zfa), h1) ->
  exists vd',
    close_then_open true outs w =
    Done (if e =? 0
          then (0, mk_out (zfa_size zfa) (zfa_size zfa)
                     SPA_MINBLOCKSHIFT SPA_MINBLOCKSHIFT)
          else (e, outs))
      (mk_world h1 vd' (w_log w ++ [EvFileGetattr (vf_file vf)]))
    /\ vdev_tsd vd' = Some vf
    /\ (e <> 0 -> vs_aux vd' = VDEV_AUX_OPEN_FAILED).
Proof.
  intros Hpath Habs Hre Htsd Hattr.
  apply VdevFileSpec.path_valid_prefix in Habs.
  destruct w as [h [path tsd re nr ht hs dc aux sm] l]. cbn in *.
  subst path re tsd.
  run. rewrite Habs. cbn. rewrite Hattr. cbn.
  destruct (e =? 0) eqn:He; cbn.
  - eexists. split; [reflexivity|]. split; [reflexivity|].
    apply Z.eqb_eq in He. intros Hne. contradiction.
  - eexists. split; [reflexivity|]. split; reflexivity.
Qed.

(** X12: whenever [vdev_file_io_start] returns, it has either completed
    the request itself, exactly once, and dispatched nothing (an ioctl or
    trim request), or handed it to the task queue exactly once and
    completed nothing (a read or write request, whose error it has not
    touched).  It never does both, never neither, and never changes the
    device. *)
Theorem vdev_file_io_start_once (w w' : world H) (zio zio' : zio_t) :
  vdev_file_io_start zio w = Done zio' w' ->
  exists evs,
    w_log w' = w_log w ++ evs
    /\ w_vd w' = w_vd w
    /\ ((exists c, filter is_completion evs = [c])
        /\ filter is_dispatch evs = []
        /\ (io_type zio = ZIO_TYPE_IOCTL \/ io_type zio = ZIO_TYPE_TRIM)
        \/
        filter is_completion evs = []
        /\ filter is_dispatch evs = [EvTaskqDispatch zio']
        /\ (io_type zio = ZIO_TYPE_READ \/ io_type zio = ZIO_TYPE_WRITE)
        /\ io_error zio' = io_error zio).
Proof.
  intros Hrun.
  destruct w as [h vd l]. destruct zio as [ty cmd off size err ts].
  destruct ty; run_in Hrun; break_run Hrun;
    injection Hrun as <- <-; cbn [w_log w_vd];
    eexists; (split; [rewrite <- ?app_assoc; reflexivity|]);
    (split; [reflexivity|]); cbn;
    first [ left; split; [eexists; reflexivity|];
            split; [reflexivity|]; auto; fail
          | right; repeat split; auto ].
Qed.

(** X13: submitting a read or write request makes no host file call and
    does not look at the handle struct or at the device's readability: it
    stores the delay answered by [zio_handle_io_delay] in the request and
    hands the request to the task queue.  If the task queue answers 0 the
    run stops at the [VERIFY3U]. *)
Theorem vdev_file_io_start_rw (w : world H) (zio : zio_t) (t id : Z)
    (h1 h2 : H) :
  io_type zio = ZIO_TYPE_READ \/ io_type zio = ZIO_TYPE_WRITE ->
  zio_handle_io_delay zio (w_host w) = (t, h1) ->
  taskq_dispatch (set_io_target_timestamp t zio) h1 = (id, h2) ->
  vdev_file_io_start zio w =
  (if id =? 0 then Panic (VERIFY_failed 254) else Done (set_io_target_timestamp t zio))
    (mk_world h2 (w_vd w)
       (w_log w ++ [EvTaskqDispatch (set_io_target_timestamp t zio)])).
Proof.
  intros Hty Hdelay Hdisp. run.
  destruct Hty as [Hty | Hty]; rewrite Hty; cbn;
    rewrite Hdelay; cbn; rewrite Hdisp; cbn;
    destruct (id =? 0); reflexivity.
Qed.

(** X14: whenever the worker [vdev_file_io_strategy] returns, the request's
    error is 0, [EIO] or [ENOSPC], never the host's own error code and
    never the error the request carried in; the worker has made exactly
    one host call followed by exactly one completion signal, has changed
    nothing of the request but its error, and has not changed the
    device. *)
Theorem vdev_file_io_strategy_range (w w' : world H) (zio zio' : zio_t) :
  vdev_file_io_strategy zio w = Done zio' w' ->
  (io_error zio' = 0 \/ io_error zio' = EIO \/ io_error zio' = ENOSPC)
  /\ zio' = set_io_error (io_error zio') zio
  /\ w_vd w' = w_vd w
  /\ exists ev,
       w_log w' = w_log w ++ [ev; EvZioDelayInterrupt zio']
       /\ is_host_call ev = true.
Proof.
  intros Hrun.
  destruct w as [h vd l]. destruct zio as [ty cmd off size err ts].
  run_in Hrun. break_run Hrun;
    injection Hrun as <- <-; cbn;
    (split; [auto|]); (split; [reflexivity|]); (split; [reflexivity|]);
    eexists; (split; [rewrite <- app_assoc; reflexivity|reflexivity]).
Qed.

(** X15: a read or write request that is submitted and then run by a
    worker goes through exactly three calls, in this order: the dispatch
    to the task queue, one positioned host call at the request's offset
    and size, and one completion signal carrying the request as it ends;
    the request ends with error 0, [EIO] or [ENOSPC]. *)
Theorem submit_and_work_rw (w w' : world H) (zio zio' : zio_t) :
  io_type zio = ZIO_TYPE_READ \/ io_type zio = ZIO_TYPE_WRITE ->
  submit_and_work zio w = Done zio' w' ->
  exists zio1 fp,
    w_log w' =
    w_log w
    ++ [EvTaskqDispatch zio1;
        if zio_type_eqb (io_type zio) ZIO_TYPE_READ
        then EvFilePread fp (s64 (io_size zio)) (s64 (io_offset zio))
        else EvFilePwrite fp (s64 (io_size zio)) (s64 (io_offset zio));
        EvZioDelayInterrupt zio']
    /\ zio' = set_io_error (io_error zio') zio1
    /\ (io_error zio' = 0 \/ io_error zio' = EIO \/ io_error zio' = ENOSPC).
Proof.
  intros Hty Hrun.
  destruct w as [h vd l]. destruct zio as [ty cmd off size err ts].
  cbn in Hty.
  destruct Hty as [-> | ->]; run_in Hrun; break_run Hrun;
    injection Hrun as <- <-; cbn;
    eexists; eexists;
    (split; [rewrite <- !app_assoc; reflexivity|]);
    (split; [reflexivity|auto]).
Qed.

End WithHost.

(** ** The theorems at concrete devices *)

Lemma vdev_file_open_outputs_witness :
  ((0 <> 0 /\ mk_out 1048576 1048576 9 9 = mk_out 0 0 0 0)
   \/ (0 = 0 /\ psize (mk_out 1048576 1048576 9 9)
                = max_psize (mk_out 1048576 1048576 9 9)
       /\ ashift (mk_out 1048576 1048576 9 9) = SPA_MINBLOCKSHIFT
       /\ physical_ashift (mk_out 1048576 1048576 9 9) = SPA_MINBLOCKSHIFT))
  /\
  ((2 <> 0 /\ mk_out 0 0 0 0 = mk_out 0 0 0 0)
   \/ (2 = 0 /\ psize (mk_out 0 0 0 0) = max_psize (mk_out 0 0 0 0)
       /\ ashift (mk_out 0 0 0 0) = SPA_MINBLOCKSHIFT
       /\ physical_ashift (mk_out 0 0 0 0) = SPA_MINBLOCKSHIFT)).
Proof.
  split.
  - eapply (vdev_file_open_outputs (host := ok_host) true
              (script_world abs_vdev) _ (mk_out 0 0 0 0)).
    cbv. reflexivity.
  - eapply (vdev_file_open_outputs (host := noent_host) true
              (script_world abs_vdev) _ (mk_out 0 0 0 0)).
    cbv. reflexivity.
Defined.

Lemma vdev_file_open_flags_witness :
  exists r w',
    vdev_file_open (host := noent_host) true (mk_out 0 0 0 0)
      (script_world abs_vdev) = Done r w'
    /\ vdev_nonrot (w_vd w') = true
    /\ vdev_has_trim (w_vd w') = true
    /\ vdev_has_securetrim (w_vd w') = false
    /\ vdev_path (w_vd w') = vdev_path abs_vdev
    /\ vdev_reopening (w_vd w') = vdev_reopening abs_vdev
    /\ vdev_spa_mode (w_vd w') = vdev_spa_mode abs_vdev.
Proof.
  eexists. eexists. split; [cbv; reflexivity|].
  eapply (vdev_file_open_flags (host := noent_host) true
            (script_world abs_vdev) _ (mk_out 0 0 0 0)).
  cbv. reflexivity.
Defined.

Lemma open_failed_then_close_witness :
  exists vd',
    open_then_close (host := noent_host) true (mk_out 0 0 0 0)
      (script_world abs_vdev) =
    Done (2, mk_out 0 0 0 0)
      (mk_world 0%nat vd'
         ([] ++ [EvKmemZalloc;
                 EvFileOpen "/tmp/pool.img"
                   (vdev_file_open_mode (vdev_spa_mode abs_vdev)) 0;
                 EvKmemFree]))
    /\ vdev_tsd vd' = None
    /\ vs_aux vd' = VDEV_AUX_OPEN_FAILED.
Proof.
  apply (open_failed_then_close (host := noent_host) true
           (script_world abs_vdev) (mk_out 0 0 0 0) "/tmp/pool.img"
           2 None 0%nat);
    [reflexivity|reflexivity|right; reflexivity|reflexivity|reflexivity
    |discriminate].
Defined.

Lemma open_then_close_round_trip_witness :
  exists vd',
    open_then_close (host := ok_host) true (mk_out 0 0 0 0)
      (script_world abs_vdev) =
    Done (0, mk_out 1048576 1048576 SPA_MINBLOCKSHIFT SPA_MINBLOCKSHIFT)
      (mk_world 2%nat vd'
         ([] ++ [EvKmemZalloc;
                 EvFileOpen "/tmp/pool.img"
                   (vdev_file_open_mode (vdev_spa_mode abs_vdev)) 0;
                 EvFileGetattr (Some 1%positive);
                 EvFileGetattr (Some 1%positive);
                 EvFileClose (Some 1%positive);
                 EvKmemFree]))
    /\ vdev_tsd vd' = None.
Proof.
  apply (open_then_close_round_trip (host := ok_host) true
           (script_world abs_vdev) (mk_out 0 0 0 0) "/tmp/pool.img"
           1%positive (mk_zfa 1048576 0) (mk_zfa 1048576 0)
           0%nat 1%nat 2%nat 2%nat);
    [reflexivity|reflexivity|right; reflexivity|reflexivity
    |reflexivity|reflexivity|reflexivity|reflexivity].
Defined.

Lemma vdev_file_open_nodev_witness :
  exists vd',
    vdev_file_open (host := noattr_host) true (mk_out 0 0 0 0)
      (script_world abs_vdev) =
    Done (ENODEV, mk_out 0 0 0 0)
      (mk_world 1%nat vd'
         ([] ++ [EvKmemZalloc;
                 EvFileOpen "/tmp/pool.img"
                   (vdev_file_open_mode (vdev_spa_mode abs_vdev)) 0;
                 EvFileGetattr (Some 1%positive)]))
    /\ vdev_tsd vd' = Some (mk_vf (Some 1%positive))
    /\ vs_aux vd' = vs_aux abs_vdev.
Proof.
  apply (vdev_file_open_nodev (host := noattr_host) true
           (script_world abs_vdev) (mk_out 0 0 0 0) "/tmp/pool.img"
           (Some 1%positive) 5 (mk_zfa 1048576 0) 0%nat 1%nat);
    [reflexivity|reflexivity|right; reflexivity|reflexivity|reflexivity
    |discriminate].
Defined.

Lemma close_then_open_reopening_witness :
  (exists vd',
     close_then_open (host := ok_host) true (mk_out 0 0 0 0)
       (script_world (open_vdev true)) =
     Done (0, mk_out 1048576 1048576 SPA_MINBLOCKSHIFT SPA_MINBLOCKSHIFT)
       (mk_world 1%nat vd' ([] ++ [EvFileGetattr (Some 1%positive)]))
     /\ vdev_tsd vd' = Some (mk_vf (Some 1%positive))
     /\ (0 <> 0 -> vs_aux vd' = VDEV_AUX_OPEN_FAILED))
  /\
  (exists vd',
     close_then_open (host := noattr_host) true (mk_out 0 0 0 0)
       (script_world (open_vdev true)) =
     Done (5, mk_out 0 0 0 0)
       (mk_world 1%nat vd' ([] ++ [EvFileGetattr (Some 1%positive)]))
     /\ vdev_tsd vd' = Some (mk_vf (Some 1%positive))
     /\ (5 <> 0 -> vs_aux vd' = VDEV_AUX_OPEN_FAILED)).
Proof.
  split.
  - apply (close_then_open_reopening (host := ok_host)
             (script_world (open_vdev true)) (mk_out 0 0 0 0)
             "/tmp/pool.img" (mk_vf (Some 1%positive)) 0
             (mk_zfa 1048576 0) 1%nat);
      reflexivity.
  - apply (close_then_open_reopening (host := noattr_host)
             (script_world (open_vdev true)) (mk_out 0 0 0 0)
             "/tmp/pool.img" (mk_vf (Some 1%positive)) 5
             (mk_zfa 1048576 0) 1%nat);
      reflexivity.
Defined.

Lemma vdev_file_io_start_once_witness :
  (exists evs,
     [EvTaskqDispatch (mk_zio ZIO_TYPE_WRITE 0 0 4096 0 7)] = [] ++ evs
     /\ open_vdev false = open_vdev false
     /\ ((exists c, filter is_completion evs = [c])
         /\ filter is_dispatch evs = []
         /\ (ZIO_TYPE_WRITE = ZIO_TYPE_IOCTL \/ ZIO_TYPE_WRITE = ZIO_TYPE_TRIM)
         \/
         filter is_completion evs = []
         /\ filter is_dispatch evs
            = [EvTaskqDispatch (mk_zio ZIO_TYPE_WRITE 0 0 4096 0 7)]
         /\ (ZIO_TYPE_WRITE = ZIO_TYPE_READ \/ ZIO_TYPE_WRITE = ZIO_TYPE_WRITE)
         /\ 0 = 0))
  /\
  (exists evs,
     [EvFileFallocate (Some 1%positive) 0 0 4096;
      EvZioExecute (mk_zio ZIO_TYPE_TRIM 0 0 4096 0 0)] = [] ++ evs
     /\ open_vdev false = open_vdev false
     /\ ((exists c, filter is_completion evs = [c])
         /\ filter is_dispatch evs = []
         /\ (ZIO_TYPE_TRIM = ZIO_TYPE_IOCTL \/ ZIO_TYPE_TRIM = ZIO_TYPE_TRIM)
         \/
         filter is_completion evs = []
         /\ filter is_dispatch evs
            = [EvTaskqDispatch (mk_zio ZIO_TYPE_TRIM 0 0 4096 0 0)]
         /\ (ZIO_TYPE_TRIM = ZIO_TYPE_READ \/ ZIO_TYPE_TRIM = ZIO_TYPE_WRITE)
         /\ 0 = 0)).
Proof.
  split.
  - apply (vdev_file_io_start_once (host := ok_host)
             (script_world (open_vdev false))
             (mk_world 0%nat (open_vdev false)
                [EvTaskqDispatch (mk_zio ZIO_TYPE_WRITE 0 0 4096 0 7)])
             (sample_zio ZIO_TYPE_WRITE 0 0 4096)
             (mk_zio ZIO_TYPE_WRITE 0 0 4096 0 7)).
    reflexivity.
  - apply (vdev_file_io_start_once (host := ok_host)
             (script_world (open_vdev false))
             (mk_world 0%nat (open_vdev false)
                [EvFileFallocate (Some 1%positive) 0 0 4096;
                 EvZioExecute (mk_zio ZIO_TYPE_TRIM 0 0 4096 0 0)])
             (sample_zio ZIO_TYPE_TRIM 0 0 4096)
             (mk_zio ZIO_TYPE_TRIM 0 0 4096 0 0)).
    reflexivity.
Defined.

Lemma vdev_file_io_start_rw_witness :
  vdev_file_io_start (host := ok_host) (sample_zio ZIO_TYPE_READ 0 512 4096)
    (script_world (closed_vdev None))
  = Done (mk_zio ZIO_TYPE_READ 0 512 4096 0 7)
      (mk_world 0%nat (closed_vdev None)
         [EvTaskqDispatch (mk_zio ZIO_TYPE_READ 0 512 4096 0 7)])
  /\
  vdev_file_io_start (host := notask_host)
    (sample_zio ZIO_TYPE_WRITE 0 512 4096) (script_world (open_vdev false))
  = Panic (VERIFY_failed 254)
      (mk_world 0%nat (open_vdev false)
         [EvTaskqDispatch (mk_zio ZIO_TYPE_WRITE 0 512 4096 0 7)]).
Proof.
  split.
  - apply (vdev_file_io_start_rw (host := ok_host)
             (script_world (closed_vdev None))
             (sample_zio ZIO_TYPE_READ 0 512 4096) 7 1 0%nat 0%nat);
      [left; reflexivity|reflexivity|reflexivity].
  - apply (vdev_file_io_start_rw (host := notask_host)
             (script_world (open_vdev false))
             (sample_zio ZIO_TYPE_WRITE 0 512 4096) 7 0 0%nat 0%nat);
      [right; reflexivity|reflexivity|reflexivity].
Defined.

Lemma vdev_file_io_strategy_range_witness :
  exists zio' w',
    vdev_file_io_strategy (host := failing_host)
      (mk_zio ZIO_TYPE_READ 0 0 4096 99 0) (sample_world (open_vdev false))
    = Done zio' w'
    /\ (io_error zio' = 0 \/ io_error zio' = EIO \/ io_error zio' = ENOSPC)
    /\ zio' = set_io_error (io_error zio') (mk_zio ZIO_TYPE_READ 0 0 4096 99 0)
    /\ w_vd w' = open_vdev false
    /\ exists ev,
         w_log w' = [] ++ [ev; EvZioDelayInterrupt zio']
         /\ is_host_call ev = true.
Proof.
  eexists. eexists. split; [cbv; reflexivity|].
  eapply (vdev_file_io_strategy_range (host := failing_host)
            (sample_world (open_vdev false))).
  cbv. reflexivity.
Defined.

Lemma submit_and_work_rw_witness :
  exists zio' w',
    submit_and_work (host := ok_host) (sample_zio ZIO_TYPE_WRITE 0 512 4096)
      (script_world (open_vdev false)) = Done zio' w'
    /\ exists zio1 fp,
         w_log w' =
         [] ++ [EvTaskqDispatch zio1;
                if zio_type_eqb ZIO_TYPE_WRITE ZIO_TYPE_READ
                then EvFilePread fp (s64 4096) (s64 512)
                else EvFilePwrite fp (s64 4096) (s64 512);
                EvZioDelayInterrupt zio']
         /\ zio' = set_io_error (io_error zio') zio1
         /\ (io_error zio' = 0 \/ io_error zio' = EIO
             \/ io_error zio' = ENOSPC).
Proof.
  eexists. eexists. split; [cbv; reflexivity|].
  eapply (submit_and_work_rw (host := ok_host)
            (script_world (open_vdev false))
            _ (sample_zio ZIO_TYPE_WRITE 0 512 4096));
    [right; reflexivity|cbv; reflexivity].
Defined.

End VdevFileMore.

(** * Properties of the discard path and the geometry reports *)

Module ZvolUnmapSpec.

Import ZvolUnmap.

Section WithVolume.

Context {V : Type} {um : UnmapOps V}.

(** The loop of [doUnmap] makes the unmap calls of a prefix of the extents,
    in array order. *)
Lemma doUnmap_loop_prefix (this : ZvolIO.zvol_device)
    (l : list IOBlockStorageDeviceExtent) :
  forall (w w' : world V) (r : ZvolIO.IOReturn),
    doUnmap_loop this l w = Done r w' ->
    exists n,
      (n <= List.length l)%nat
      /\ w_log w' = w_log w ++ map discard_event (firstn n l)
      /\ ((r = ZvolIO.kIOReturnSuccess /\ n = List.length l)
          \/ (r = ZvolIO.kIOReturnError /\ (0 < n)%nat)).
Proof.
  induction l as [|x rest IH]; intros w w' r Hrun.
  - injection Hrun as <- <-. exists 0%nat. cbn.
    rewrite app_nil_r. repeat split; auto.
  - cbn in Hrun. unfold doDiscard, call, bind, ret in Hrun. cbn in Hrun.
    destruct (zvol_os_unmap (ZvolIO.zv this)
                (u64 (blockStart x * ZvolIO.ZVOL_BSIZE))
                (u64 (blockCount x * ZvolIO.ZVOL_BSIZE)) (w_vol w))
      as [e v].
    destruct (e =? 0); cbn in Hrun.
    + apply IH in Hrun. destruct Hrun as (n & Hn & Hlog & Hres).
      exists (S n). cbn in *. split; [lia|]. split.
      * rewrite Hlog, <- app_assoc. reflexivity.
      * destruct Hres as [[-> ->] | [-> Hpos]]; [left|right]; split;
          auto; lia.
    + injection Hrun as <- <-. exists 1%nat. cbn. split; [lia|].
      split; [reflexivity|]. right. split; [reflexivity|lia].
Qed.


(** X17: unmapping the extents of two arrays joined end to end is
    unmapping the first array and then, only if that succeeded, the second
    from the state the first left; a failure in the first is the answer
    and the second is not started. *)
Theorem doUnmap_loop_app (this : ZvolIO.zvol_device)
    (a b : list IOBlockStorageDeviceExtent) (w : world V) :
  doUnmap_loop this (a ++ b) w =
  (r <- doUnmap_loop this a ;;
   if negb (IOReturn_eqb r ZvolIO.kIOReturnSuccess) then ret r
   else doUnmap_loop this b) w.
Proof.
  revert w. induction a as [|x rest IH]; intros w.
  - reflexivity.
  - cbn [doUnmap_loop app]. unfold bind.
    destruct (doDiscard this (blockStart x) (blockCount x) w)
      as [r w1 | f w1]; [|reflexivity].
    destruct (IOReturn_eqb r ZvolIO.kIOReturnSuccess) eqn:Hr; cbn.
    + rewrite IH. unfold bind. reflexivity.
    + unfold ret. rewrite Hr. reflexivity.
Qed.

End WithVolume.

Section WithIO.

Context {V : Type} {vol : ZvolIO.ZvolOps V}.


(** X22: the geometry the device reports.  For a volume of at least one
    block, the blocks 0 to the reported maximum, at the reported block
    size, cover the volume up to less than one block: a trailing partial
    block is not part of the device.  For a volume smaller than one block
    the subtraction wraps and the reported maximum is 2^64 - 1. *)
Theorem reported_geometry (this : ZvolIO.zvol_device) (b0 m0 bs maxb : Z) :
  reportBlockSize this (Some b0) = (ZvolIO.kIOReturnSuccess, Some bs) ->
  reportMaxValidBlock this (Some m0) = (ZvolIO.kIOReturnSuccess, Some maxb) ->
  0 <= ZvolIO.zv_volsize (ZvolIO.zv this) < 2 ^ 64 ->
  (bs <= ZvolIO.zv_volsize (ZvolIO.zv this) ->
   (maxb + 1) * bs <= ZvolIO.zv_volsize (ZvolIO.zv this)
                    < (maxb + 2) * bs)
  /\ (ZvolIO.zv_volsize (ZvolIO.zv this) < bs -> maxb = 2 ^ 64 - 1).
Proof.
  unfold reportBlockSize, reportMaxValidBlock.
  intros Hbs Hmax Hsize. injection Hbs as <-. injection Hmax as <-.
  unfold ZvolIO.ZVOL_BSIZE, ZvolIO.DEV_BSIZE in *.
  set (size := ZvolIO.zv_volsize (ZvolIO.zv this)) in *.
  pose proof (Z.div_mod size 512 ltac:(lia)) as Hdm.
  pose proof (Z.mod_pos_bound size 512 ltac:(lia)) as Hmod.
  split.
  - intros Hone. rewrite ZvolIOSpec.u64_small by lia. lia.
  - intros Hsmall. rewrite Z.div_small by lia. reflexivity.
Qed.

End WithIO.

(** ** The theorems at concrete devices *)



Lemma reported_geometry_witness :
  (512 <= 1049000 -> (2047 + 1) * 512 <= 1049000 < (2047 + 2) * 512)
  /\ (300 < 512 -> 18446744073709551615 = 2 ^ 64 - 1).
Proof.
  split.
  - apply (proj1 (reported_geometry (ZvolIO.attached 1049000) 0 0 512 2047
                    eq_refl eq_refl ltac:(cbn; lia))).
  - apply (proj2 (reported_geometry (ZvolIO.attached 300) 0 0 512
                    18446744073709551615
                    eq_refl eq_refl ltac:(cbn; lia))).
Defined.

End ZvolUnmapSpec.

(** * Properties of the open and close handlers *)

Module ZvolOpenSpec.

Import ZvolOpen.

Ltac run :=
  unfold handleOpen, handleClose, zvolRemoveDevice, clearState, set_zv,
    get_zv, call, modify, bind, ret;
  cbn.

Ltac run_in Hyp :=
  unfold handleOpen, handleClose, zvolRemoveDevice, clearState, set_zv,
    get_zv, call, modify, bind, ret in Hyp;
  cbn in Hyp.

Section WithKit.

Context {K : Type} {kit : KitOps K}.

Variable FREAD : Z.
Variable FWRITE : Z.
Variable ZVOL_EXCL : Z.
Variable kIOStorageAccessReaderWriter : Z.

(** X19: whenever [handleOpen] returns.  If it answers true, the device
    was attached, the volume was opened with the flags stored before the
    call, and the flags stored afterwards are the ones this open asked for:
    [FWRITE | ZVOL_EXCL] when the access has a reader-writer bit, [FREAD]
    otherwise.  If it answers false, the stored state is untouched, and
    either nothing but the superclass open was called, or the volume open
    was tried and the superclass open was undone by one superclass
    close. *)
Theorem handleOpen_outcome (options access : Z) (w w' : world K) (b : bool) :
  handleOpen FREAD FWRITE ZVOL_EXCL kIOStorageAccessReaderWriter
    options access w = Done b w' ->
  (b = true
   /\ exists o,
        attached_zso (w_zv w) = Some o
        /\ w_zv w' =
           Some (mk_zv (Some (mk_zso (zvo_iokitdev o)
             (if negb (Z.land access kIOStorageAccessReaderWriter =? 0)
              then Z.lor FWRITE ZVOL_EXCL else FREAD))))
        /\ w_log w' =
           w_log w ++ [EvSuperHandleOpen options access;
                       EvZvolOpen (zvo_openflags o) 0])
  \/
  (b = false
   /\ w_zv w' = w_zv w
   /\ (w_log w' = w_log w ++ [EvSuperHandleOpen options access]
       \/ exists o,
            attached_zso (w_zv w) = Some o
            /\ w_log w' =
               w_log w ++ [EvSuperHandleOpen options access;
                           EvZvolOpen (zvo_openflags o) 0;
                           EvSuperHandleClose options])).
Proof.
  intros Hrun. destruct w as [k z l]. run_in Hrun.
  destruct (super_handleOpen options access k) as [[|] k1]; cbn in Hrun.
  2:{ injection Hrun as <- <-. right. auto. }
  destruct (attached_zso z) as [o|] eqn:Hatt; cbn in Hrun.
  2:{ injection Hrun as <- <-. right. auto. }
  destruct (zvol_os_open_zv (zvo_openflags o) 0 k1) as [e k2]; cbn in Hrun.
  destruct (e =? 0); cbn in Hrun.
  - injection Hrun as <- <-. left. split; [reflexivity|].
    exists o. cbn. rewrite <- app_assoc. auto.
  - destruct (super_handleClose options k2) as [[] k3]. cbn in Hrun.
    injection Hrun as <- <-. right. split; [reflexivity|].
    split; [reflexivity|]. right. exists o. cbn.
    rewrite <- !app_assoc. auto.
Qed.

(** X20: an open that succeeds followed by a close.  The volume is opened
    with the flags the previous open left behind and closed with the flags
    this open asked for, and the calls are, in order: superclass open,
    volume open, superclass close, volume close. *)
Theorem handleOpen_then_handleClose (options access options' : Z)
    (w : world K) (o : zvol_state_os_t) (e : Z) (k1 k2 k3 k4 : K) :
  attached_zso (w_zv w) = Some o ->
  super_handleOpen options access (w_kit w) = (true, k1) ->
  zvol_os_open_zv (zvo_openflags o) 0 k1 = (0, k2) ->
  super_handleClose options' k2 = (tt, k3) ->
  zvol_os_close_zv
    (if negb (Z.land access kIOStorageAccessReaderWriter =? 0)
     then Z.lor FWRITE ZVOL_EXCL else FREAD) 0 k3 = (e, k4) ->
  (b <- handleOpen FREAD FWRITE ZVOL_EXCL kIOStorageAccessReaderWriter
          options access ;;
   handleClose options' ;;
   ret b) w =
  Done true
    (mk_world k4
       (Some (mk_zv (Some (mk_zso (zvo_iokitdev o)
          (if negb (Z.land access kIOStorageAccessReaderWriter =? 0)
           then Z.lor FWRITE ZVOL_EXCL else FREAD)))))
       (w_log w
        ++ [EvSuperHandleOpen options access;
            EvZvolOpen (zvo_openflags o) 0;
            EvSuperHandleClose options';
            EvZvolClose
              (if negb (Z.land access kIOStorageAccessReaderWriter =? 0)
               then Z.lor FWRITE ZVOL_EXCL else FREAD) 0])).
Proof.
  intros Hatt Hsup Hopen Hsc Hclose. destruct w as [k z l]. cbn in *.
  assert (Hdev : zvo_iokitdev o <> None).
  { destruct z as [[[[dv fl]|]]|]; cbn in Hatt; try discriminate.
    destruct dv; [|discriminate]. injection Hatt as <-. discriminate. }
  run. rewrite Hsup. cbn. rewrite Hatt. cbn. rewrite Hopen. cbn.
  rewrite Hsc. cbn.
  destruct (zvo_iokitdev o) as [dv|] eqn:Hd; [|congruence]. cbn.
  rewrite Hclose. cbn. rewrite <- !app_assoc. reflexivity.
Qed.

(** X21: removal marks the device as terminating.  After
    [zvolRemoveDevice] on a wrapper that points to the device, the wrapper
    is freed and the device's [zv] is NULL; an open that follows answers
    false without calling the volume layer, whatever the superclass says,
    and a close that follows calls the superclass only. *)
Theorem zvolRemoveDevice_then_open_close (options access options' : Z)
    (w : world K) :
  exists w',
    (r <- zvolRemoveDevice (Some (mk_iokit true)) ;;
     b <- handleOpen FREAD FWRITE ZVOL_EXCL kIOStorageAccessReaderWriter
            options access ;;
     handleClose options' ;;
     ret (r, b)) w = Done (true, false) w'
    /\ w_zv w' = None
    /\ w_log w' =
       w_log w ++ [EvKmemFree; EvSuperHandleOpen options access;
                   EvSuperHandleClose options'].
Proof.
  destruct w as [k z l]. run.
  destruct (super_handleOpen options access k) as [[|] k1]; cbn;
    destruct (super_handleClose options' k1) as [[] k2]; cbn;
    eexists; (split; [reflexivity|]); (split; [reflexivity|]);
    cbn; rewrite <- !app_assoc; reflexivity.
Qed.

End WithKit.

(** ** The theorems at concrete devices *)

Lemma handleOpen_outcome_witness :
  (true = true
   /\ exists o,
        attached_zso (attached_zv 1) = Some o
        /\ attached_zv 10 =
           Some (mk_zv (Some (mk_zso (zvo_iokitdev o)
             (if negb (Z.land 3 3 =? 0) then Z.lor 2 8 else 1))))
        /\ [EvSuperHandleOpen 0 3; EvZvolOpen 1 0] =
           [] ++ [EvSuperHandleOpen 0 3; EvZvolOpen (zvo_openflags o) 0])
  \/
  (true = false
   /\ attached_zv 10 = attached_zv 1
   /\ ([EvSuperHandleOpen 0 3; EvZvolOpen 1 0]
       = [] ++ [EvSuperHandleOpen 0 3]
       \/ exists o,
            attached_zso (attached_zv 1) = Some o
            /\ [EvSuperHandleOpen 0 3; EvZvolOpen 1 0] =
               [] ++ [EvSuperHandleOpen 0 3;
                      EvZvolOpen (zvo_openflags o) 0;
                      EvSuperHandleClose 0])).
Proof.
  apply (handleOpen_outcome (kit := sim_kit true 0) 1 2 8 3 0 3
           (mk_world tt (attached_zv 1) [])
           (mk_world tt (attached_zv 10)
              [EvSuperHandleOpen 0 3; EvZvolOpen 1 0]) true).
  reflexivity.
Defined.

Lemma handleOpen_then_handleClose_witness :
  (b <- handleOpen (kit := sim_kit true 0) 1 2 8 3 0 3 ;;
   handleClose (kit := sim_kit true 0) 0 ;;
   ret b) (mk_world tt (attached_zv 1) []) =
  Done true
    (mk_world tt
       (Some (mk_zv (Some (mk_zso (Some 1%positive)
          (if negb (Z.land 3 3 =? 0) then Z.lor 2 8 else 1)))))
       ([] ++ [EvSuperHandleOpen 0 3; EvZvolOpen 1 0;
               EvSuperHandleClose 0;
               EvZvolClose (if negb (Z.land 3 3 =? 0)
                            then Z.lor 2 8 else 1) 0])).
Proof.
  apply (handleOpen_then_handleClose (kit := sim_kit true 0) 1 2 8 3 0 3 0
           (mk_world tt (attached_zv 1) [])
           (mk_zso (Some 1%positive) 1) 0 tt tt tt tt);
    reflexivity.
Defined.

End ZvolOpenSpec.
